(** * vision-AI: the detection loop, the overlay renderer, the narration
      trigger and the session timer, embedded from the TypeScript sources.

    Conventions of the embedding.
    - A JavaScript [number] that carries a measurement (a timestamp of
      [performance.now()], a pixel coordinate, a probability) is an exact
      rational of [Q]; counters and sizes are integers of [Z] or [nat].
      [Math.round x] is [floor (x + 1/2)].  The products 640 * 0.33,
      640 * 0.67, 480 * 0.33, 480 * 0.67 and [probability * 100] are exact
      here and rounded to a double in the browser; properties that depend
      on a comparison with them are stated for values a margin away from
      the threshold (module [Thirds]), where both agree.
    - React state is a record; a [setX] call is a record update.  A
      [useCallback] closure is the record of the values it captured.
    - A collaborator (speech synthesis, the canvas 2D context, the
      detector, [requestAnimationFrame]) is modelled by the list of calls it
      receives, or by the queue it keeps. *)

From Stdlib Require Import ZArith QArith Qround Lqa Lia Bool List String Ascii.
From Stdlib Require Import DecimalString.
Import ListNotations.

Local Open Scope string_scope.
Local Open Scope Z_scope.

(** ** JavaScript numbers *)

Module JS.

(** [Math.round]. *)
Definition round (x : Q) : Z := Qfloor (x + (1 # 2))%Q.

(** [x < y] on numbers. *)
Definition ltb (x y : Q) : bool := negb (Qle_bool y x).

(** [x > y] on numbers. *)
Definition gtb (x y : Q) : bool := ltb y x.

(** The text of an integer inside a template literal. *)
Definition show (z : Z) : string := NilZero.string_of_int (Z.to_int z).

(** [text.includes(part)]. *)
Definition includes (text part : string) : bool :=
  match String.index 0 part text with
  | Some _ => true
  | None => false
  end.

End JS.

(** ** The shared data model *)

(** [interface Face]. *)
Record Face : Type := mkFace {
  topLeft : Q * Q;
  bottomRight : Q * Q;
  probability : Q
}.

(** The face of the specification's scenario: confidence 0.95, box
    (10,10)-(60,80). *)
Definition scenarioFace : Face := mkFace (10, 10)%Q (60, 80)%Q (95 # 100)%Q.

(** One element of the detector's answer; [p_probability] is [None] when the
    adapter omits the probability array. *)
Record Prediction : Type := mkPrediction {
  p_topLeft : Q * Q;
  p_bottomRight : Q * Q;
  p_probability : option Q
}.

(** The [predictions.map(...)] of both detection paths. *)
Definition toFace (p : Prediction) : Face :=
  {| topLeft := p_topLeft p;
     bottomRight := p_bottomRight p;
     probability := match p_probability p with
                    | Some q => q
                    | None => (9 # 10)%Q
                    end |}.

(** [array.forEach((x, index) => ...)] where the body emits calls. *)
Fixpoint forEachFrom {A B : Type} (index : nat) (body : A -> nat -> list B)
    (xs : list A) : list B :=
  match xs with
  | [] => []
  | x :: rest => body x index ++ forEachFrom (S index) body rest
  end.

Definition forEach {A B : Type} (body : A -> nat -> list B) (xs : list A)
  : list B := forEachFrom 0 body xs.



(** [faces.reduce((sum, face) => sum + face.probability, 0)]. *)
Definition sumProbability (faces : list Face) : Q :=
  fold_left (fun sum face => (sum + probability face)%Q) faces 0%Q.

(** ** VoiceDescription.tsx: the narration trigger *)

Module VoiceDescription.

(** An entry of [window.speechSynthesis.getVoices()]. *)
Record SpeechSynthesisVoice : Type := mkVoice {
  name : string;
  default : bool
}.

(** [new SpeechSynthesisUtterance(text)] with the fields the component
    sets; the three callbacks are the events [EvStart], [EvEnd] and
    [EvError] below. *)
Record Utterance : Type := mkUtterance {
  text : string;
  rate : Q;
  pitch : Q;
  volume : Q;
  voice : option SpeechSynthesisVoice
}.

(** Calls received by [window.speechSynthesis]. *)
Inductive SpeechCall : Type :=
| Cancel
| Speak (u : Utterance).

(** Props, [useState] cells and the part of [window] the component reads. *)
Record State : Type := mkState {
  faces : list Face;
  enabled : bool;
  isSpeaking : bool;
  lastFaceCount : Z;
  speechSupported : bool;
  currentDescription : string;
  voices : list SpeechSynthesisVoice
}.

Definition setProps (fs : list Face) (en : bool) (s : State) : State :=
  mkState fs en (isSpeaking s) (lastFaceCount s) (speechSupported s)
          (currentDescription s) (voices s).

Definition setIsSpeaking (b : bool) (s : State) : State :=
  mkState (faces s) (enabled s) b (lastFaceCount s) (speechSupported s)
          (currentDescription s) (voices s).

Definition setLastFaceCount (n : Z) (s : State) : State :=
  mkState (faces s) (enabled s) (isSpeaking s) n (speechSupported s)
          (currentDescription s) (voices s).

Definition setSpeechSupported (b : bool) (s : State) : State :=
  mkState (faces s) (enabled s) (isSpeaking s) (lastFaceCount s) b
          (currentDescription s) (voices s).

Definition setCurrentDescription (d : string) (s : State) : State :=
  mkState (faces s) (enabled s) (isSpeaking s) (lastFaceCount s)
          (speechSupported s) d (voices s).

(** The state of a freshly mounted component. *)
Definition initial (fs : list Face) (en : bool)
    (vs : list SpeechSynthesisVoice) : State :=
  mkState fs en false 0 false "" vs.

(** The predicate of [getVoices().find(...)]. *)
Definition preferredVoice (v : SpeechSynthesisVoice) : bool :=
  JS.includes (name v) "Google" || JS.includes (name v) "Neural"
  || default v.

(** [speakDescription]: returns the new state and the calls made on the
    speech collaborator. *)
Definition speakDescription (description : string) (s : State)
  : State * list SpeechCall :=
  if negb (enabled s) || negb (speechSupported s) then (s, [])
  else
    let utterance :=
      {| text := description;
         rate := (85 # 100)%Q;
         pitch := (11 # 10)%Q;
         volume := (8 # 10)%Q;
         voice := find preferredVoice (voices s) |} in
    (setCurrentDescription description s, [Cancel; Speak utterance]).

(** [getPositionDescription]: the frame size is the constant 640 x 480. *)
Definition getPositionDescription (face : Face) : string :=
  let '(x1, y1) := topLeft face in
  let '(x2, y2) := bottomRight face in
  let centerX := ((x1 + x2) / 2)%Q in
  let centerY := ((y1 + y2) / 2)%Q in
  let width := 640%Q in
  let height := 480%Q in
  let horizontal :=
    if JS.ltb centerX (width * (33 # 100))%Q then "left"
    else if JS.gtb centerX (width * (67 # 100))%Q then "right"
    else "center" in
  let vertical :=
    if JS.ltb centerY (height * (33 # 100))%Q then "upper"
    else if JS.gtb centerY (height * (67 # 100))%Q then "lower"
    else "middle" in
  vertical ++ " " ++ horizontal.

(** The fixed message of the empty batch. *)
Definition noFacesMessage : string :=
  "No faces currently detected in the camera view. Please position yourself in front of the camera for face detection.".

(** The description composed inside the narration effect. *)
Definition describe (fs : list Face) : string :=
  match fs with
  | [] => noFacesMessage
  | [face] =>
      let confidence := JS.round (probability face * 100)%Q in
      let position := getPositionDescription face in
      "One face detected with " ++ JS.show confidence
        ++ "% confidence, positioned in the " ++ position
        ++ " of the frame."
  | _ =>
      let currentFaceCount := Z.of_nat (List.length fs) in
      let avgConfidence :=
        JS.round (sumProbability fs / inject_Z currentFaceCount * 100)%Q in
      JS.show currentFaceCount
        ++ " faces detected with an average confidence of "
        ++ JS.show avgConfidence ++ "%."
  end.

(** The argument with which the narration effect calls
    [speakDescription]; [None] where it does not call it. *)
Definition narrationCall (s : State) : option string :=
  if negb (enabled s) then None
  else
    let currentFaceCount := Z.of_nat (List.length (faces s)) in
    if (1 <=? Z.abs (currentFaceCount - lastFaceCount s))%Z
    then Some (describe (faces s))
    else None.

(** The second [useEffect]. *)
Definition narrationEffect (s : State) : State * list SpeechCall :=
  match narrationCall s with
  | None => (s, [])
  | Some description =>
      let '(s1, calls) := speakDescription description s in
      (setLastFaceCount (Z.of_nat (List.length (faces s))) s1, calls)
  end.

(** The effect runs again when one of its dependencies changed; its own
    [setLastFaceCount] is such a change. *)
Definition rerender (s : State) : State * list SpeechCall :=
  let '(s1, calls1) := narrationEffect s in
  let '(s2, calls2) := narrationEffect s1 in
  (s2, (calls1 ++ calls2)%list).

(** The sentence [getDetailedDescription] adds for one face. *)
Definition detailOf (face : Face) (index : nat) : list string :=
  let confidence := JS.round (probability face * 100)%Q in
  let position := getPositionDescription face in
  let '(x1, y1) := topLeft face in
  let '(x2, y2) := bottomRight face in
  let width := JS.round (x2 - x1)%Q in
  let height := JS.round (y2 - y1)%Q in
  [ "Face " ++ JS.show (Z.of_nat index + 1) ++ " is positioned in the "
      ++ position ++ " area of the frame with " ++ JS.show confidence
      ++ "% confidence. The face bounding box measures " ++ JS.show width
      ++ " by " ++ JS.show height ++ " pixels. ";
    if (95 <=? confidence)%Z then "Excellent detection quality. "
    else if (80 <=? confidence)%Z then "Good detection quality. "
    else "Fair detection quality - consider improving lighting or positioning. " ].

(** [getDetailedDescription]. *)
Definition getDetailedDescription (s : State) : string :=
  match faces s with
  | [] => "No faces currently detected. Please position yourself in front of the camera for optimal face detection. Ensure good lighting and that your face is clearly visible."
  | fs =>
      let n := Z.of_nat (List.length fs) in
      let avgConfidence :=
        JS.round (sumProbability fs / inject_Z n * 100)%Q in
      "Currently detecting " ++ JS.show n ++ " face"
        ++ (if (n =? 1)%Z then "" else "s") ++ " in the camera view. "
        ++ String.concat "" (forEach detailOf fs)
        ++ "Overall detection performance: " ++ JS.show avgConfidence
        ++ "% average confidence."
  end.

(** [speakDetailedDescription]. *)
Definition speakDetailedDescription (s : State) : State * list SpeechCall :=
  speakDescription (getDetailedDescription s) s.

(** [stopSpeaking]. *)
Definition stopSpeaking (s : State) : State * list SpeechCall :=
  if speechSupported s then (setIsSpeaking false s, [Cancel]) else (s, []).

(** What can happen to a mounted component. *)
Inductive Event : Type :=
| EvSupport (supported : bool)
    (* first effect: setSpeechSupported('speechSynthesis' in window) *)
| EvProps (fs : list Face) (en : bool)
    (* the parent renders the component with new props *)
| EvDescribe        (* click on "Describe Current View" *)
| EvStopSpeaking    (* click on "Stop" *)
| EvStart           (* utterance.onstart *)
| EvEnd             (* utterance.onend *)
| EvError.          (* utterance.onerror *)

Definition step (e : Event) (s : State) : State * list SpeechCall :=
  match e with
  | EvSupport supported => rerender (setSpeechSupported supported s)
  | EvProps fs en => rerender (setProps fs en s)
  | EvDescribe => speakDetailedDescription s
  | EvStopSpeaking => stopSpeaking s
  | EvStart => (setIsSpeaking true s, [])
  | EvEnd => (setIsSpeaking false s, [])
  | EvError => (setIsSpeaking false s, [])
  end.

Fixpoint run (es : list Event) (s : State) : State * list SpeechCall :=
  match es with
  | [] => (s, [])
  | e :: rest =>
      let '(s1, calls1) := step e s in
      let '(s2, calls2) := run rest s1 in
      (s2, (calls1 ++ calls2)%list)
  end.

(** Mounting: after the first render the narration effect runs with
    [speechSupported] still false, then the support test of the first
    effect is committed. *)
Definition mount (fs : list Face) (en : bool)
    (vs : list SpeechSynthesisVoice) (supported : bool)
  : State * list SpeechCall :=
  let '(s1, calls1) := narrationEffect (initial fs en vs) in
  let '(s2, calls2) := step (EvSupport supported) s1 in
  (s2, (calls1 ++ calls2)%list).

(** The events that are a completion or error callback of an utterance. *)
Definition isUtteranceCallback (e : Event) : bool :=
  match e with
  | EvEnd | EvError => true
  | _ => false
  end.

(** Whether a list of calls hands an utterance to the speech output. *)
Definition dispatches (calls : list SpeechCall) : bool :=
  existsb (fun c => match c with Speak _ => true | Cancel => false end) calls.

(** [faces.length] of the current props. *)
Definition count (s : State) : Z := Z.of_nat (List.length (faces s)).

(** The utterance [speakDescription] builds for a text. *)
Definition utteranceOf (description : string) (s : State) : Utterance :=
  mkUtterance description (85 # 100)%Q (11 # 10)%Q (8 # 10)%Q
              (find preferredVoice (voices s)).

End VoiceDescription.

(** ** The canvas 2D context, as the calls it receives *)

Module Canvas2D.

(** A CSS colour written by a template literal: [hsl(${hue}, S%, L%)],
    [hsla(${hue}, S%, L%, A)], or a literal such as ['white']. *)
Inductive Color : Type :=
| Hsl (hue saturation lightness : Z)
| Hsla (hue saturation lightness : Z) (alpha : string)
| Literal (text : string).


(** [ctx.createLinearGradient(x0, y0, x1, y1)] after its [addColorStop]
    calls. *)
Record Gradient : Type := mkGradient {
  x0 : Q; y0 : Q; x1 : Q; y1 : Q;
  colorStops : list (Q * Color)
}.

Inductive Style : Type :=
| Solid (c : Color)
| Linear (g : Gradient).

Inductive Call : Type :=
| SetStrokeStyle (c : Color)
| SetFillStyle (s : Style)
| SetLineWidth (w : Q)
| SetLineDash (segments : list Q)
| SetShadowColor (c : Color)
| SetShadowBlur (b : Q)
| SetFont (font : string)
| StrokeRect (x y w h : Q)
| FillRect (x y w h : Q)
| BeginPath
| MoveTo (x y : Q)
| LineTo (x y : Q)
| Stroke
| FillText (text : string) (x y : Q).

(** The overlay surface: its size and the drawing calls it received since
    it was last blank. *)
Record Canvas : Type := mkCanvas {
  width : Z;
  height : Z;
  drawn : list Call
}.

(** A new canvas element. *)
Definition blank : Canvas := mkCanvas 300 150 [].

(** [canvas.width = w; canvas.height = h]: resizing resets the surface. *)
Definition resize (w h : Z) (cv : Canvas) : Canvas := mkCanvas w h [].

(** [ctx.clearRect(0, 0, canvas.width, canvas.height)]. *)
Definition clearRect (cv : Canvas) : Canvas :=
  mkCanvas (width cv) (height cv) [].

(** The calls of one rendering pass reach the surface. *)
Definition draw (calls : list Call) (cv : Canvas) : Canvas :=
  mkCanvas (width cv) (height cv) (drawn cv ++ calls).

(** The hue of a call that sets a colour written with [hsl] or [hsla]. *)
Definition hueOfColor (c : Color) : list Z :=
  match c with
  | Hsl h _ _ | Hsla h _ _ _ => [h]
  | Literal _ => []
  end.

Definition huesOfCall (c : Call) : list Z :=
  match c with
  | SetStrokeStyle k | SetShadowColor k | SetFillStyle (Solid k) =>
      hueOfColor k
  | SetFillStyle (Linear g) =>
      flat_map (fun stop => hueOfColor (snd stop)) (colorStops g)
  | _ => []
  end.

(** Every hue that a list of calls uses. *)
Definition huesOf (calls : list Call) : list Z := flat_map huesOfCall calls.

(** The draw of a label: the [fillText] of a text that begins [Face ]. *)
Definition isLabelDraw (c : Call) : bool :=
  match c with
  | FillText t _ _ => String.prefix "Face " t
  | _ => false
  end.

Definition labelDraws (calls : list Call) : nat :=
  List.length (filter isLabelDraw calls).

End Canvas2D.

(** ** WebcamCapture.tsx: the frame scheduler and the live overlay *)

Module WebcamCapture.
Import Canvas2D.

(** The values a [detectFaces] closure captured from its render. *)
Record Closure : Type := mkClosure {
  c_model : bool;        (* model !== null *)
  c_isStreaming : bool
}.

(** The [useState] cells. *)
Record Hooks : Type := mkHooks {
  isStreaming : bool;
  model : bool;
  isLoading : bool;
  error : option string;
  faceCount : Z;
  fps : Z;
  isRecording : bool
}.

(** The [useRef] cells. *)
Record Refs : Type := mkRefs {
  animationFrameRef : option nat;
  fpsCounterRef : Z;
  lastTimeRef : Q;
  lastDetectionTime : Q
}.

(** The browser side: the animation-frame callbacks not yet run, the next
    handle [requestAnimationFrame] returns, and the [detectFaces] calls
    suspended at [await model.estimateFaces]. *)
Record Browser : Type := mkBrowser {
  frames : list (nat * Closure);
  nextFrame : nat;
  pending : list Closure
}.

Record World : Type := mkWorld {
  hooks : Hooks;
  refs : Refs;
  srcObject : bool;               (* videoRef.current.srcObject !== null *)
  canvas : Canvas;
  browser : Browser;
  effectDeps : option Closure     (* the dependencies of the last run of
                                     the streaming effect *)
}.

(** What a display tick finds: the 2D context, the video's size and
    ready state. *)
Record Env : Type := mkEnv {
  context : bool;                 (* canvas.getContext('2d') !== null *)
  videoWidth : Z;
  videoHeight : Z;
  readyState : Z
}.

(** What the component does to its collaborators. *)
Inductive Action : Type :=
| EstimateFaces (now : Q)           (* model.estimateFaces(video, false) *)
| OnFaceDetected (faces : list Face)
| ConsoleError
| StopTracks.

Definition withHooks (h : Hooks) (w : World) : World :=
  mkWorld h (refs w) (srcObject w) (canvas w) (browser w) (effectDeps w).
Definition withRefs (r : Refs) (w : World) : World :=
  mkWorld (hooks w) r (srcObject w) (canvas w) (browser w) (effectDeps w).
Definition withSrcObject (b : bool) (w : World) : World :=
  mkWorld (hooks w) (refs w) b (canvas w) (browser w) (effectDeps w).
Definition withCanvas (cv : Canvas) (w : World) : World :=
  mkWorld (hooks w) (refs w) (srcObject w) cv (browser w) (effectDeps w).
Definition withBrowser (b : Browser) (w : World) : World :=
  mkWorld (hooks w) (refs w) (srcObject w) (canvas w) b (effectDeps w).
Definition withEffectDeps (d : option Closure) (w : World) : World :=
  mkWorld (hooks w) (refs w) (srcObject w) (canvas w) (browser w) d.

Definition setIsStreaming (b : bool) (h : Hooks) : Hooks :=
  mkHooks b (model h) (isLoading h) (error h) (faceCount h) (fps h)
          (isRecording h).
Definition setModel (b : bool) (h : Hooks) : Hooks :=
  mkHooks (isStreaming h) b (isLoading h) (error h) (faceCount h) (fps h)
          (isRecording h).
Definition setIsLoading (b : bool) (h : Hooks) : Hooks :=
  mkHooks (isStreaming h) (model h) b (error h) (faceCount h) (fps h)
          (isRecording h).
Definition setError (e : option string) (h : Hooks) : Hooks :=
  mkHooks (isStreaming h) (model h) (isLoading h) e (faceCount h) (fps h)
          (isRecording h).
Definition setFaceCount (n : Z) (h : Hooks) : Hooks :=
  mkHooks (isStreaming h) (model h) (isLoading h) (error h) n (fps h)
          (isRecording h).
Definition setFps (n : Z) (h : Hooks) : Hooks :=
  mkHooks (isStreaming h) (model h) (isLoading h) (error h) (faceCount h) n
          (isRecording h).
Definition setIsRecording (b : bool) (h : Hooks) : Hooks :=
  mkHooks (isStreaming h) (model h) (isLoading h) (error h) (faceCount h)
          (fps h) b.

Definition initial : World :=
  mkWorld (mkHooks false false true None 0 0 false)
          (mkRefs None 0 0%Q 0%Q)
          false blank
          (mkBrowser [] 1 [])
          None.

(** The [video] and [canvas] elements exist only in the branch
    [!isLoading && !error] of the JSX. *)
Definition mounted (w : World) : bool :=
  negb (isLoading (hooks w))
  && match error (hooks w) with None => true | Some _ => false end.

(** [animationFrameRef.current = requestAnimationFrame(detectFaces)]. *)
Definition requestAnimationFrame (c : Closure) (w : World) : World :=
  let b := browser w in
  let id := nextFrame b in
  let r := refs w in
  withRefs (mkRefs (Some id) (fpsCounterRef r) (lastTimeRef r)
                   (lastDetectionTime r))
    (withBrowser (mkBrowser (frames b ++ [(id, c)]) (S id) (pending b)) w).

(** [if (animationFrameRef.current)
       cancelAnimationFrame(animationFrameRef.current)]. *)
Definition cancelAnimationFrame (w : World) : World :=
  match animationFrameRef (refs w) with
  | Some (S _ as id) =>
      let b := browser w in
      withBrowser
        (mkBrowser (filter (fun f => negb (Nat.eqb (fst f) id)) (frames b))
                   (nextFrame b) (pending b)) w
  | _ => w
  end.

(** The body of [faces.forEach((face, index) => ...)]. *)
Definition drawFace (face : Face) (index : nat) : list Call :=
  let '(x1, y1) := topLeft face in
  let '(x2, y2) := bottomRight face in
  let width := (x2 - x1)%Q in
  let height := (y2 - y1)%Q in
  let hue := 120 + Z.of_nat index * 60 in
  let cornerSize := 20%Q in
  let labelWidth := 180%Q in
  let labelHeight := 30%Q in
  let labelY :=
    if JS.gtb y1 (labelHeight + 10)%Q then (y1 - labelHeight - 5)%Q
    else (y2 + 10)%Q in
  [ SetStrokeStyle (Hsl hue 70 60);
    SetLineWidth 3;
    SetLineDash [];
    StrokeRect x1 y1 width height;
    SetStrokeStyle (Hsl hue 70 70);
    SetLineWidth 3;
    BeginPath;
    MoveTo x1 (y1 + cornerSize); LineTo x1 y1; LineTo (x1 + cornerSize) y1;
    Stroke;
    BeginPath;
    MoveTo (x2 - cornerSize) y1; LineTo x2 y1; LineTo x2 (y1 + cornerSize);
    Stroke;
    BeginPath;
    MoveTo x1 (y2 - cornerSize); LineTo x1 y2; LineTo (x1 + cornerSize) y2;
    Stroke;
    BeginPath;
    MoveTo (x2 - cornerSize) y2; LineTo x2 y2; LineTo x2 (y2 - cornerSize);
    Stroke;
    SetFillStyle (Solid (Hsla hue 70 20 "0.9"));
    FillRect x1 labelY labelWidth labelHeight;
    SetStrokeStyle (Hsl hue 70 60);
    SetLineWidth 2;
    StrokeRect x1 labelY labelWidth labelHeight;
    SetFillStyle (Solid (Literal "white"));
    SetFont "bold 14px Inter, sans-serif";
    FillText ("Face " ++ JS.show (Z.of_nat index + 1) ++ " • "
                ++ JS.show (JS.round (probability face * 100)%Q) ++ "%")
             (x1 + 8) (labelY + 20) ]%Q.

(** [ctx.clearRect(...); faces.forEach(...)]. *)
Definition render (faces : list Face) (cv : Canvas) : Canvas :=
  draw (forEach drawFace faces) (clearRect cv).

(** [detectFaces] up to its [await]. *)
Definition detectFaces (c : Closure) (env : Env) (now : Q) (w : World)
  : World * list Action :=
  if negb (c_model c) || negb (mounted w) || negb (c_isStreaming c)
  then (w, [])
  else if negb (context env) || (videoWidth env =? 0)
          || negb (readyState env =? 4)
  then (requestAnimationFrame c w, [])
  else if JS.ltb (now - lastDetectionTime (refs w))%Q 67
  then (requestAnimationFrame c w, [])
  else
    let r := refs w in
    let counted := JS.gtb (lastTimeRef r) 0 in
    let delta := (now - lastTimeRef r)%Q in
    let counter :=
      if counted then fpsCounterRef r + 1 else fpsCounterRef r in
    let h := hooks w in
    let h1 :=
      if counted && (counter mod 15 =? 0)
      then setFps (JS.round (1000 / delta)%Q) h else h in
    let cv := canvas w in
    let cv1 :=
      if negb (width cv =? videoWidth env)
         || negb (height cv =? videoHeight env)
      then resize (videoWidth env) (videoHeight env) cv else cv in
    let b := browser w in
    (mkWorld h1 (mkRefs (animationFrameRef r) counter now now)
             (srcObject w) cv1
             (mkBrowser (frames b) (nextFrame b) (pending b ++ [c]))
             (effectDeps w),
     [EstimateFaces now]).

(** [detectFaces] from its [await] on: the promise of the detector
    resolved with predictions, or rejected ([None]). *)
Definition resume (c : Closure) (result : option (list Prediction))
    (w : World) : World * list Action :=
  match result with
  | Some predictions =>
      let faces := map toFace predictions in
      let w1 :=
        withHooks (setFaceCount (Z.of_nat (List.length faces)) (hooks w)) w in
      (requestAnimationFrame c (withCanvas (render faces (canvas w1)) w1),
       [OnFaceDetected faces])
  | None => (requestAnimationFrame c w, [ConsoleError])
  end.

(** [stopWebcam]. *)
Definition stopWebcam (w : World) : World * list Action :=
  let '(w1, acts) :=
    if mounted w && srcObject w
    then (withHooks (setIsRecording false (setIsStreaming false (hooks w)))
            (withSrcObject false w), [StopTracks])
    else (w, []) in
  (cancelAnimationFrame w1, acts).

(** [startWebcam] once [getUserMedia] settled. *)
Definition startWebcam (granted : bool) (w : World) : World :=
  if granted then
    if mounted w
    then withHooks (setError None (setIsStreaming true (hooks w)))
           (withSrcObject true w)
    else w
  else
    withHooks
      (setError (Some "Failed to access webcam. Please check permissions.")
                (hooks w)) w.

(** The effect on [[isStreaming, model, detectFaces]], at the commit of a
    render: the previous run's cleanup, then the body. *)
Definition streamingEffect (w : World) : World :=
  let current := mkClosure (model (hooks w)) (isStreaming (hooks w)) in
  let body (v : World) : World :=
    if isStreaming (hooks v) && model (hooks v)
    then requestAnimationFrame current v
    else cancelAnimationFrame v in
  match effectDeps w with
  | None => withEffectDeps (Some current) (body w)
  | Some previous =>
      if Bool.eqb (c_model previous) (c_model current)
         && Bool.eqb (c_isStreaming previous) (c_isStreaming current)
      then w
      else withEffectDeps (Some current) (body (cancelAnimationFrame w))
  end.

(** Removes the [k]-th element. *)
Fixpoint removeNth {A : Type} (k : nat) (xs : list A) : list A :=
  match k, xs with
  | _, [] => []
  | O, _ :: rest => rest
  | S k', x :: rest => x :: removeNth k' rest
  end.

Inductive Event : Type :=
| EvModelLoaded (ok : bool)       (* loadModel settled *)
| EvStartWebcam (granted : bool)  (* startWebcam settled *)
| EvStopWebcam                    (* stopWebcam *)
| EvToggleRecording
| EvCommit                        (* React commits a render *)
| EvFrame (id : nat) (env : Env) (now : Q)
    (* the browser runs the animation-frame callback [id] at time [now] *)
| EvSettle (k : nat) (result : option (list Prediction)).
    (* the detector call of the [k]-th suspended [detectFaces] settles *)

Definition step (e : Event) (w : World) : World * list Action :=
  match e with
  | EvModelLoaded ok =>
      (withHooks
         (if ok then setIsLoading false (setModel true (hooks w))
          else setIsLoading false
                 (setError (Some "Failed to load face detection model")
                           (hooks w))) w, [])
  | EvStartWebcam granted => (startWebcam granted w, [])
  | EvStopWebcam => stopWebcam w
  | EvToggleRecording =>
      (withHooks (setIsRecording (negb (isRecording (hooks w))) (hooks w)) w,
       [])
  | EvCommit => (streamingEffect w, [])
  | EvFrame id env now =>
      let b := browser w in
      match find (fun f => Nat.eqb (fst f) id) (frames b) with
      | None => (w, [])
      | Some (_, c) =>
          detectFaces c env now
            (withBrowser
               (mkBrowser
                  (filter (fun f => negb (Nat.eqb (fst f) id)) (frames b))
                  (nextFrame b) (pending b)) w)
      end
  | EvSettle k result =>
      let b := browser w in
      match nth_error (pending b) k with
      | None => (w, [])
      | Some c =>
          resume c result
            (withBrowser
               (mkBrowser (frames b) (nextFrame b) (removeNth k (pending b)))
               w)
      end
  end.

Fixpoint run (es : list Event) (w : World) : World * list Action :=
  match es with
  | [] => (w, [])
  | e :: rest =>
      let '(w1, acts1) := step e w in
      let '(w2, acts2) := run rest w1 in
      (w2, (acts1 ++ acts2)%list)
  end.

(** The times at which the detector was invoked. *)
Fixpoint estimateTimes (acts : list Action) : list Q :=
  match acts with
  | [] => []
  | EstimateFaces now :: rest => now :: estimateTimes rest
  | _ :: rest => estimateTimes rest
  end.

(** The batches handed to [onFaceDetected]. *)
Fixpoint delivered (acts : list Action) : list (list Face) :=
  match acts with
  | [] => []
  | OnFaceDetected faces :: rest => faces :: delivered rest
  | _ :: rest => delivered rest
  end.

(** A tick that stops at the not-ready test or at the throttle gate. *)
Definition rejected (w : World) (env : Env) (now : Q) : bool :=
  negb (context env) || (videoWidth env =? 0) || negb (readyState env =? 4)
  || JS.ltb (now - lastDetectionTime (refs w))%Q 67.

(** The time of the last accepted detection. *)
Definition lastDetection (w : World) : Q := lastDetectionTime (refs w).

(** Invocation times that are, one after the other and counted from
    [last], at least 67 ms apart. *)
Fixpoint spaced (last : Q) (ts : list Q) : Prop :=
  match ts with
  | [] => True
  | t :: rest => (67 <= t - last)%Q /\ spaced t rest
  end.

(** A tick with a 1280 x 720 frame ready. *)
Definition ready720 : Env := mkEnv true 1280 720 4.

(** A detector answer of one face: confidence 0.95, box (10,10)-(60,80). *)
Definition scenarioPrediction : Prediction :=
  mkPrediction (10, 10)%Q (60, 80)%Q (Some (95 # 100)%Q).

(** The model loads, the camera starts, the loop is scheduled and its
    first accepted tick, at 100 ms, invokes the detector. *)
Definition untilFirstDetection : list Event :=
  [ EvModelLoaded true; EvStartWebcam true; EvCommit;
    EvFrame 1 ready720 100%Q ].

End WebcamCapture.

(** ** ImageUpload.tsx: the still-image overlay *)

Module ImageUpload.
Import Canvas2D.

Record State : Type := mkState {
  selectedImage : option string;
  isProcessing : bool;
  detectedFaces : list Face;
  analysisComplete : bool;
  canvas : Canvas
}.

Inductive Action : Type :=
| OnFaceDetected (faces : list Face)
| ConsoleError.

Definition initial : State := mkState None false [] false blank.

(** [Math.min] and [Math.max]. *)
Definition min (a b : Q) : Q := if JS.ltb b a then b else a.
Definition max (a b : Q) : Q := if JS.ltb a b then b else a.

(** An element of the [corners] array. *)
Record Corner : Type := mkCorner {
  cx : Q; cy : Q;
  dx : list Q; dy : list Q
}.

(** The body of [corners.forEach(corner => ...)]. *)
Definition drawCorner (cornerSize : Q) (corner : Corner) : list Call :=
  [ BeginPath;
    MoveTo (cx corner + nth 0 (dx corner) 0 * cornerSize)
           (cy corner + nth 0 (dy corner) 0 * cornerSize);
    LineTo (cx corner) (cy corner);
    LineTo (cx corner + nth 1 (dx corner) 0 * cornerSize)
           (cy corner + nth 1 (dy corner) 0 * cornerSize);
    Stroke ]%Q.

(** The body of [faces.forEach((face, index) => ...)]. *)
Definition drawFace (face : Face) (index : nat) : list Call :=
  let '(x1, y1) := topLeft face in
  let '(x2, y2) := bottomRight face in
  let width := (x2 - x1)%Q in
  let height := (y2 - y1)%Q in
  let hue := 120 + Z.of_nat index * 60 in
  let cornerSize := (min width height * (15 # 100))%Q in
  let corners :=
    [ mkCorner x1 y1 [1; 0; 0; 1]%Q [0; 1; 1; 0]%Q;
      mkCorner x2 y1 [-1; 0; 0; 1]%Q [0; 1; 1; 0]%Q;
      mkCorner x1 y2 [1; 0; 0; -1]%Q [0; -1; -1; 0]%Q;
      mkCorner x2 y2 [-1; 0; 0; -1]%Q [0; -1; -1; 0]%Q ] in
  let labelWidth := max 250 (width * (8 # 10))%Q in
  let labelHeight := 45%Q in
  let labelY :=
    if JS.gtb y1 (labelHeight + 10)%Q then (y1 - labelHeight - 5)%Q
    else (y2 + 10)%Q in
  let gradient :=
    mkGradient x1 labelY (x1 + labelWidth)%Q (labelY + labelHeight)%Q
      [ (0%Q, Hsla hue 70 10 "0.95");
        ((1 # 2)%Q, Hsla hue 70 20 "0.95");
        (1%Q, Hsla hue 70 15 "0.95") ] in
  let barWidth := (labelWidth - 30)%Q in
  let barHeight := 4%Q in
  let barY := (labelY + labelHeight - 12)%Q in
  let progressWidth := (probability face * barWidth)%Q in
  let barGradient :=
    mkGradient (x1 + 15)%Q barY (x1 + 15 + progressWidth)%Q barY
      [ (0%Q, Hsl hue 70 50); (1%Q, Hsl hue 70 70) ] in
  ([ SetShadowColor (Hsl hue 70 50);
     SetShadowBlur 20;
     SetStrokeStyle (Hsla hue 70 50 "0.8");
     SetLineWidth 4;
     SetLineDash [];
     StrokeRect (x1 - 3) (y1 - 3) (width + 6) (height + 6);
     SetShadowBlur 0;
     SetStrokeStyle (Hsl hue 70 60);
     SetLineWidth 3;
     SetLineDash [12; 6];
     StrokeRect x1 y1 width height;
     SetStrokeStyle (Hsl hue 70 70);
     SetLineWidth 4;
     SetLineDash [] ]%Q
   ++ flat_map (drawCorner cornerSize) corners
   ++ [ SetFillStyle (Linear gradient);
        FillRect x1 labelY labelWidth labelHeight;
        SetStrokeStyle (Hsla hue 70 50 "0.8");
        SetLineWidth 2;
        StrokeRect x1 labelY labelWidth labelHeight;
        SetFillStyle (Solid (Literal "white"));
        SetFont "bold 20px Inter, sans-serif";
        FillText ("Face " ++ JS.show (Z.of_nat index + 1))
                 (x1 + 15) (labelY + 22);
        SetFont "16px Inter, sans-serif";
        SetFillStyle (Solid (Hsl hue 70 70));
        FillText (JS.show (JS.round (probability face * 100)%Q)
                    ++ "% confidence")
                 (x1 + 15) (labelY + 38);
        SetFillStyle (Solid (Literal "rgba(255, 255, 255, 0.2)"));
        FillRect (x1 + 15) barY barWidth barHeight;
        SetFillStyle (Linear barGradient);
        FillRect (x1 + 15) barY progressWidth barHeight ]%Q)%list.

(** [ctx.clearRect(...); faces.forEach(...)]. *)
Definition render (faces : list Face) (cv : Canvas) : Canvas :=
  draw (forEach drawFace faces) (clearRect cv).

(** [detectFacesInImage], with the outcome of the detector call as an
    argument: predictions, or a rejection ([None]).  The [img] and
    [canvas] elements exist only while an image is selected. *)
Definition detectFacesInImage (model context : bool)
    (naturalWidth naturalHeight : Z) (result : option (list Prediction))
    (s : State) : State * list Action :=
  match model, selectedImage s with
  | true, Some _ =>
      if negb context
      then (mkState (selectedImage s) false (detectedFaces s)
                    (analysisComplete s) (canvas s), [])
      else
        let cv := resize naturalWidth naturalHeight (canvas s) in
        match result with
        | Some predictions =>
            let faces := map toFace predictions in
            (mkState (selectedImage s) false faces true (render faces cv),
             [OnFaceDetected faces])
        | None =>
            (mkState (selectedImage s) false (detectedFaces s)
                     (analysisComplete s) cv, [ConsoleError])
        end
  | _, _ => (s, [])
  end.

End ImageUpload.

(** ** ImageUpload.tsx: the remaining handlers *)

Module ImageUploadFlow.
Import Canvas2D ImageUpload.

(** [reader.onload] of [handleImageUpload].  The canvas element is on the
    page only while an image is selected: the first image after none
    mounts a new, blank one. *)
Definition handleImageUpload (dataUrl : string) (s : State) : State :=
  mkState (Some dataUrl) (isProcessing s) [] false
          (match selectedImage s with
           | Some _ => canvas s
           | None => blank
           end).

(** [clearImage]; the canvas element leaves the page with the image, and
    the next image gets a new one. *)
Definition clearImage (s : State) : State :=
  mkState None (isProcessing s) [] false blank.

(** [detectFacesInImage] up to its [await]: the new state, and whether the
    detector was called. *)
Definition beginDetection (model context : bool)
    (naturalWidth naturalHeight : Z) (s : State) : State * bool :=
  match model, selectedImage s with
  | true, Some _ =>
      if negb context
      then (mkState (selectedImage s) false (detectedFaces s)
                    (analysisComplete s) (canvas s), false)
      else (mkState (selectedImage s) true (detectedFaces s)
                    (analysisComplete s)
                    (resize naturalWidth naturalHeight (canvas s)), true)
  | _, _ => (s, false)
  end.

(** [detectFacesInImage] from its [await] on, with the [finally]. *)
Definition settleDetection (result : option (list Prediction)) (s : State)
  : State * list Action :=
  match result with
  | Some predictions =>
      let faces := map toFace predictions in
      (mkState (selectedImage s) false faces true (render faces (canvas s)),
       [OnFaceDetected faces])
  | None =>
      (mkState (selectedImage s) false (detectedFaces s)
               (analysisComplete s) (canvas s), [ConsoleError])
  end.

(** The [onLoad] handler of the image element. *)
Definition imageOnLoad (model context : bool)
    (naturalWidth naturalHeight : Z) (s : State) : State * bool :=
  if model && negb (analysisComplete s)
  then beginDetection model context naturalWidth naturalHeight s
  else (s, false).

(** What [drawImage] puts on the result canvas. *)
Inductive Layer : Type :=
| ImageLayer (src : string)
| OverlayLayer (calls : list Call).

(** The file [downloadResult] offers. *)
Record Download : Type := mkDownload {
  download : string;
  resultWidth : Z;
  resultHeight : Z;
  layers : list Layer
}.

(** [downloadResult]; [context] tells whether both [getContext('2d')]
    calls succeed and [now] is [Date.now()]. *)
Definition downloadResult (context : bool) (now : Z) (s : State)
  : option Download :=
  match selectedImage s with
  | None => None
  | Some src =>
      if negb context then None
      else Some (mkDownload
                   ("face-detection-result-" ++ JS.show now ++ ".png")
                   (width (canvas s)) (height (canvas s))
                   [ImageLayer src; OverlayLayer (drawn (canvas s))])
  end.

End ImageUploadFlow.

(** ** ImageUpload.tsx: the component on the page *)

Module ImageUploadPage.
Import Canvas2D ImageUpload ImageUploadFlow.

(** The component with what outlives a render: the number of canvas
    elements mounted so far, and for every detector call in flight the
    canvas element its closure captured. *)
Record Page : Type := mkPage {
  ui : State;
  element : nat;
  inFlight : list nat
}.

Definition start : Page := mkPage initial 0 [].

Inductive Event : Type :=
| EvFile (dataUrl : string)          (* reader.onload *)
| EvClear                            (* click on the clear button *)
| EvAnalyze (context : bool) (naturalWidth naturalHeight : Z)
    (* click on "Detect Faces" *)
| EvImageLoad (context : bool) (naturalWidth naturalHeight : Z)
    (* onLoad of the image element *)
| EvSettled (k : nat) (result : option (list Prediction)).
    (* the [k]-th detector call in flight settles *)

Inductive Output : Type :=
| CallDetector                       (* model.estimateFaces(image, false) *)
| Report (a : Action).

(** The settlement of a call whose canvas is no longer on the page: the
    state is set all the same, the drawing lands on the captured element. *)
Definition settleDetached (result : option (list Prediction)) (s : State)
  : State * list Action :=
  match result with
  | Some predictions =>
      let faces := map toFace predictions in
      (mkState (selectedImage s) false faces true (canvas s),
       [OnFaceDetected faces])
  | None =>
      (mkState (selectedImage s) false (detectedFaces s)
               (analysisComplete s) (canvas s), [ConsoleError])
  end.

Definition started (called : bool) (p : Page) (s : State)
  : Page * list Output :=
  if called
  then (mkPage s (element p) (inFlight p ++ [element p]), [CallDetector])
  else (mkPage s (element p) (inFlight p), []).

(** One event of the component rendered with the prop [model]. *)
Definition step (model : bool) (e : Event) (p : Page) : Page * list Output :=
  match e with
  | EvFile dataUrl =>
      (mkPage (handleImageUpload dataUrl (ui p))
              (match selectedImage (ui p) with
               | Some _ => element p
               | None => S (element p)
               end)
              (inFlight p), [])
  | EvClear => (mkPage (clearImage (ui p)) (element p) (inFlight p), [])
  | EvAnalyze context naturalWidth naturalHeight =>
      let '(s, called) :=
        beginDetection model context naturalWidth naturalHeight (ui p) in
      started called p s
  | EvImageLoad context naturalWidth naturalHeight =>
      let '(s, called) :=
        imageOnLoad model context naturalWidth naturalHeight (ui p) in
      started called p s
  | EvSettled k result =>
      match nth_error (inFlight p) k with
      | None => (p, [])
      | Some captured =>
          let onPage :=
            Nat.eqb captured (element p)
            && match selectedImage (ui p) with
               | Some _ => true
               | None => false
               end in
          let '(s, acts) :=
            if onPage then settleDetection result (ui p)
            else settleDetached result (ui p) in
          (mkPage s (element p) (WebcamCapture.removeNth k (inFlight p)),
           map Report acts)
      end
  end.

Fixpoint run (model : bool) (es : list Event) (p : Page)
  : Page * list Output :=
  match es with
  | [] => (p, [])
  | e :: rest =>
      let '(p1, out1) := step model e p in
      let '(p2, out2) := run model rest p1 in
      (p2, (out1 ++ out2)%list)
  end.

(** The batches handed to [onFaceDetected]. *)
Fixpoint reported (outs : list Output) : list (list Face) :=
  match outs with
  | [] => []
  | Report (OnFaceDetected faces) :: rest => faces :: reported rest
  | _ :: rest => reported rest
  end.


End ImageUploadPage.

(** ** App: the session statistics and the wiring of the components *)

Module App.

Record State : Type := mkState {
  faces : list Face;
  voiceEnabled : bool;
  model : bool;
  isModelLoading : bool;
  detectionCount : Z;
  sessionTime : Z;
  loadingProgress : Z
}.

Definition initial : State := mkState [] true false true 0 0 0.

(** [handleFaceDetected]. *)
Definition handleFaceDetected (detectedFaces : list Face) (s : State)
  : State :=
  mkState detectedFaces (voiceEnabled s) (model s) (isModelLoading s)
          (match detectedFaces with
           | [] => detectionCount s
           | _ => detectionCount s + 1
           end)
          (sessionTime s) (loadingProgress s).

(** [handleVoiceToggle]. *)
Definition handleVoiceToggle (enabled : bool) (s : State) : State :=
  mkState (faces s) enabled (model s) (isModelLoading s) (detectionCount s)
          (sessionTime s) (loadingProgress s).

(** The callback of [setInterval(..., 1000)]:
    [setSessionTime(prev => prev + 1)]. *)
Definition sessionTick (s : State) : State :=
  mkState (faces s) (voiceEnabled s) (model s) (isModelLoading s)
          (detectionCount s) (sessionTime s + 1) (loadingProgress s).

(** The model-loading effect after [blazeface.load()] settled. *)
Definition modelSettled (ok : bool) (s : State) : State :=
  if ok
  then mkState (faces s) (voiceEnabled s) true (isModelLoading s)
               (detectionCount s) (sessionTime s) 100
  else mkState (faces s) (voiceEnabled s) (model s) false
               (detectionCount s) (sessionTime s) (loadingProgress s).

(** [setLoadingProgress] between the steps of the loading. *)
Definition setLoadingProgress (p : Z) (s : State) : State :=
  mkState (faces s) (voiceEnabled s) (model s) (isModelLoading s)
          (detectionCount s) (sessionTime s) p.

(** The [setTimeout(..., 500)] that ends the loading screen. *)
Definition transitionDone (s : State) : State :=
  mkState (faces s) (voiceEnabled s) (model s) false (detectionCount s)
          (sessionTime s) (loadingProgress s).

(** The application: its own state and the two components it renders
    with [onFaceDetected = handleFaceDetected], the webcam and the image
    upload, the latter also with [model = model]. *)
Record System : Type := mkSystem {
  app : State;
  webcam : WebcamCapture.World;
  upload : ImageUploadPage.Page
}.

Definition start : System :=
  mkSystem initial WebcamCapture.initial ImageUploadPage.start.

Inductive Event : Type :=
| EvInterval                          (* one second of the session timer *)
| EvProgress (p : Z)
| EvModelSettled (ok : bool)
| EvTransitionDone
| EvVoiceToggle (enabled : bool)
| EvWebcam (e : WebcamCapture.Event)
| EvImage (e : ImageUploadPage.Event).

(** The batches a webcam step hands to [onFaceDetected] reach
    [handleFaceDetected] in order. *)
Definition deliver (acts : list WebcamCapture.Action) (s : State) : State :=
  fold_left (fun st batch => handleFaceDetected batch st)
            (WebcamCapture.delivered acts) s.

(** The batches an image-upload step hands to [onFaceDetected] reach
    [handleFaceDetected] in order. *)
Definition deliverImage (outs : list ImageUploadPage.Output) (s : State)
  : State :=
  fold_left (fun st batch => handleFaceDetected batch st)
            (ImageUploadPage.reported outs) s.

Definition step (e : Event) (y : System) : System :=
  match e with
  | EvInterval => mkSystem (sessionTick (app y)) (webcam y) (upload y)
  | EvProgress p =>
      mkSystem (setLoadingProgress p (app y)) (webcam y) (upload y)
  | EvModelSettled ok =>
      mkSystem (modelSettled ok (app y)) (webcam y) (upload y)
  | EvTransitionDone =>
      mkSystem (transitionDone (app y)) (webcam y) (upload y)
  | EvVoiceToggle enabled =>
      mkSystem (handleVoiceToggle enabled (app y)) (webcam y) (upload y)
  | EvWebcam e' =>
      let '(w, acts) := WebcamCapture.step e' (webcam y) in
      mkSystem (deliver acts (app y)) w (upload y)
  | EvImage e' =>
      let '(p, outs) :=
        ImageUploadPage.step (model (app y)) e' (upload y) in
      mkSystem (deliverImage outs (app y)) (webcam y) p
  end.

Definition run (es : list Event) (y : System) : System :=
  fold_left (fun st e => step e st) es y.

(** Detection is active while the webcam streams. *)
Definition active (y : System) : bool :=
  WebcamCapture.isStreaming (WebcamCapture.hooks (webcam y)).

(** The number of timer callbacks among the events. *)
Definition intervals (es : list Event) : Z :=
  Z.of_nat (List.length
    (filter (fun e => match e with EvInterval => true | _ => false end) es)).

End App.

(** ** The speech synthesis queue *)

Module SpeechSynthesis.
Import VoiceDescription.

(** The utterances [window.speechSynthesis] holds, speaking or waiting:
    [speak] appends one, [cancel] removes them all. *)
Definition receive (queue : list Utterance) (c : SpeechCall)
  : list Utterance :=
  match c with
  | Cancel => []
  | Speak u => (queue ++ [u])%list
  end.

Definition receiveAll (calls : list SpeechCall) (queue : list Utterance)
  : list Utterance := fold_left receive calls queue.

End SpeechSynthesis.

(** ** WebcamCapture.tsx: the remaining handlers *)

Module WebcamControls.
Import WebcamCapture.

(** [toggleWebcam]; [granted] is the outcome of [getUserMedia] when the
    camera is started. *)
Definition toggleWebcam (granted : bool) (w : World) : World * list Action :=
  if isStreaming (hooks w) then stopWebcam w else (startWebcam granted w, []).

(** The continuations of the detection loop: callbacks waiting for a
    display frame and calls suspended at the detector. *)
Definition live (w : World) : nat :=
  (List.length (frames (browser w)) + List.length (pending (browser w)))%nat.

(** The number of committed renders among the events. *)
Definition commits (es : list Event) : nat :=
  List.length
    (filter (fun e => match e with EvCommit => true | _ => false end) es).

End WebcamControls.

(** ** StatsPanel: the animated figures *)

Module StatsPanel.

(** The [animatedValues] state. *)
Record AnimatedValues : Type := mkValues {
  faces : Z;
  confidence : Z;
  detections : Z;
  time : Z
}.

Definition initialValues : AnimatedValues := mkValues 0 0 0 0.

(** The first [n] characters of [pad] repeated, continuing from [rest]. *)
Fixpoint filler (n : nat) (pad rest : string) : string :=
  match n with
  | O => ""
  | S n' =>
      match rest with
      | String c rest' => String c (filler n' pad rest')
      | EmptyString =>
          match pad with
          | String c pad' => String c (filler n' pad pad')
          | EmptyString => ""
          end
      end
  end.

(** [s.padStart(targetLength, padString)]. *)
Definition padStart (targetLength : nat) (padString s : string) : string :=
  if (targetLength <=? String.length s)%nat then s
  else filler (targetLength - String.length s) padString padString ++ s.

(** [formatTime], on a whole number of seconds. *)
Definition formatTime (seconds : Z) : string :=
  let mins := seconds / 60 in
  let secs := Z.rem seconds 60 in
  JS.show mins ++ ":" ++ padStart 2 "0" (JS.show secs).

(** [averageConfidence]. *)
Definition averageConfidence (fs : list Face) : Z :=
  match fs with
  | [] => 0
  | _ =>
      JS.round (sumProbability fs / inject_Z (Z.of_nat (List.length fs))
                * 100)%Q
  end.

(** [animate], with [Math.sign], [Math.min] and [Math.abs] on integers. *)
Definition animate (current target step : Z) : Z :=
  if current =? target then current
  else
    let diff := target - current in
    let increment := Z.sgn diff * Z.min (Z.abs diff) step in
    current + increment.

(** The callback of [setInterval(..., 50)] for the current props. *)
Definition tick (fs : list Face) (detectionCount sessionTime : Z)
    (prev : AnimatedValues) : AnimatedValues :=
  mkValues (animate (faces prev) (Z.of_nat (List.length fs)) 1)
           (animate (confidence prev) (averageConfidence fs) 2)
           (animate (detections prev) detectionCount 3)
           sessionTime.

(** The figures once the animation has caught up with the props. *)
Definition settled (fs : list Face) (detectionCount sessionTime : Z)
  : AnimatedValues :=
  mkValues (Z.of_nat (List.length fs)) (averageConfidence fs) detectionCount
           sessionTime.

(** The character of a decimal digit. *)
Definition digit (d : Z) : ascii := ascii_of_nat (48 + Z.to_nat d).

End StatsPanel.

(** ** LoadingScreen: the list of loading steps *)

Module LoadingScreen.

Inductive StepStatus : Type :=
| Done       (* the green dot *)
| Active     (* the spinner *)
| Waiting.   (* the grey dot *)

(** The array of steps with their thresholds. *)
Definition steps : list (string * Z) :=
  [ ("Initializing TensorFlow.js", 20);
    ("Setting up WebGL Backend", 40);
    ("Loading BlazeFace Model", 60);
    ("Optimizing for Performance", 80);
    ("Ready for Detection", 100) ].

(** The conditional of one item. *)
Definition status (progress threshold : Z) : StepStatus :=
  if threshold <=? progress then Done
  else if threshold - 20 <=? progress then Active
  else Waiting.

Definition statuses (progress : Z) : list StepStatus :=
  map (fun item => status progress (snd item)) steps.

Definition isActive (s : StepStatus) : bool :=
  match s with Active => true | _ => false end.

Definition isDone (s : StepStatus) : bool :=
  match s with Done => true | _ => false end.

End LoadingScreen.

(** ** App: the batches that reach [handleFaceDetected] *)

Module AppTrace.
Import App.

(** The batches the webcam and the image upload hand to [onFaceDetected]
    along a run. *)
Fixpoint batches (es : list Event) (y : System) : list (list Face) :=
  match es with
  | [] => []
  | e :: rest =>
      (match e with
       | EvWebcam e' =>
           WebcamCapture.delivered
             (snd (WebcamCapture.step e' (webcam y)))
       | EvImage e' =>
           ImageUploadPage.reported
             (snd (ImageUploadPage.step (model (app y)) e' (upload y)))
       | _ => []
       end ++ batches rest (step e y))%list
  end.

Definition nonEmpty (batch : list Face) : bool :=
  match batch with [] => false | _ => true end.

End AppTrace.

(** ** Where the overlay puts its labels *)

Module OverlayGeometry.
Import Canvas2D.

(** A filled rectangle or a text lies above the top edge [y1] of the box,
    below the top of the surface, or else below the bottom edge [y2]. *)
Definition clearOfBox (y1 y2 : Q) (c : Call) : Prop :=
  match c with
  | FillRect _ y _ h => ((0 < y /\ y + h < y1) \/ y2 < y)%Q
  | FillText _ _ y => ((0 < y /\ y < y1) \/ y2 < y)%Q
  | _ => True
  end.

End OverlayGeometry.

(** ** Centres a whole pixel away from the boundaries *)

Module Thirds.

(** The horizontal word for a centre abscissa that keeps clear of the
    boundaries 640 * 0.33 and 640 * 0.67. *)
Definition horizontalOf (centerX : Q) (word : string) : Prop :=
  ((centerX <= 211)%Q /\ word = "left")
  \/ ((212 <= centerX <= 428)%Q /\ word = "center")
  \/ ((429 <= centerX)%Q /\ word = "right").

(** The vertical word for a centre ordinate that keeps clear of the
    boundaries 480 * 0.33 and 480 * 0.67. *)
Definition verticalOf (centerY : Q) (word : string) : Prop :=
  ((centerY <= 158)%Q /\ word = "upper")
  \/ ((159 <= centerY <= 321)%Q /\ word = "middle")
  \/ ((322 <= centerY)%Q /\ word = "lower").

End Thirds.

(** ** Mirrored faces *)

Module Mirror.

(** The face seen in a mirror across the vertical axis of the 640 x 480
    frame of [getPositionDescription]. *)
Definition mirror (face : Face) : Face :=
  let '(x1, y1) := topLeft face in
  let '(x2, y2) := bottomRight face in
  mkFace (640 - x2, y1)%Q (640 - x1, y2)%Q (probability face).

(** A position phrase with left and right exchanged. *)
Definition mirrored (position : string) : string :=
  if String.eqb position "upper left" then "upper right"
  else if String.eqb position "middle left" then "middle right"
  else if String.eqb position "lower left" then "lower right"
  else if String.eqb position "upper right" then "upper left"
  else if String.eqb position "middle right" then "middle left"
  else if String.eqb position "lower right" then "lower left"
  else position.

End Mirror.

(** * Properties *)

(** ** JavaScript comparisons *)

Module JSFacts.

Lemma ltb_lt (x y : Q) : JS.ltb x y = true <-> (x < y)%Q.
Proof.
    unfold JS.ltb. rewrite negb_true_iff.
    destruct (Qle_bool y x) eqn:E.
    - apply Qle_bool_iff in E. split; [discriminate | intro; lra].
    - split; [intros _ | reflexivity].
      destruct (Qlt_le_dec x y) as [L | L]; [exact L |].
      apply Qle_bool_iff in L. congruence.
Qed.

Lemma ltb_ge (x y : Q) : JS.ltb x y = false <-> (y <= x)%Q.
Proof.
    unfold JS.ltb. rewrite negb_false_iff. apply Qle_bool_iff.
Qed.

Lemma gtb_gt (x y : Q) : JS.gtb x y = true <-> (y < x)%Q.
Proof. unfold JS.gtb. apply ltb_lt. Qed.

Lemma gtb_le (x y : Q) : JS.gtb x y = false <-> (x <= y)%Q.
Proof. unfold JS.gtb. apply ltb_ge. Qed.

End JSFacts.

(** ** The narration trigger *)

Module VoiceFacts.
Import VoiceDescription.

Lemma speakDescription_isSpeaking (d : string) (s : State) :
  isSpeaking (fst (speakDescription d s)) = isSpeaking s.
Proof.
  unfold speakDescription.
  destruct (negb (enabled s) || negb (speechSupported s)); reflexivity.
Qed.

Lemma speakDescription_lastFaceCount (d : string) (s : State) :
  lastFaceCount (fst (speakDescription d s)) = lastFaceCount s.
Proof.
  unfold speakDescription.
  destruct (negb (enabled s) || negb (speechSupported s)); reflexivity.
Qed.

Lemma speakDescription_props (d : string) (s : State) :
  faces (fst (speakDescription d s)) = faces s
  /\ enabled (fst (speakDescription d s)) = enabled s.
Proof.
  unfold speakDescription.
  destruct (negb (enabled s) || negb (speechSupported s)); split; reflexivity.
Qed.

Lemma speakDescription_supported (d : string) (s : State) :
  enabled s = true -> speechSupported s = true ->
  dispatches (snd (speakDescription d s)) = true.
Proof.
  intros En Su. unfold speakDescription. rewrite En, Su. reflexivity.
Qed.

Lemma speakDescription_unsupported (d : string) (s : State) :
  speechSupported s = false -> speakDescription d s = (s, []).
Proof.
  intros Su. unfold speakDescription. rewrite Su, orb_true_r. reflexivity.
Qed.

Lemma narrationCall_disabled (s : State) :
  enabled s = false -> narrationCall s = None.
Proof. intros En. unfold narrationCall. rewrite En. reflexivity. Qed.

Lemma narrationCall_enabled (s : State) :
  enabled s = true ->
  narrationCall s =
    if 1 <=? Z.abs (count s - lastFaceCount s)
    then Some (describe (faces s)) else None.
Proof. intros En. unfold narrationCall, count. rewrite En. reflexivity. Qed.

Lemma narrationEffect_isSpeaking (s : State) :
  isSpeaking (fst (narrationEffect s)) = isSpeaking s.
Proof.
  unfold narrationEffect. destruct (narrationCall s) as [d |]; [| reflexivity].
  pose proof (speakDescription_isSpeaking d s) as H.
  destruct (speakDescription d s) as [s1 calls]. exact H.
Qed.

Lemma narrationEffect_lastFaceCount (s : State) :
  lastFaceCount (fst (narrationEffect s)) =
    match narrationCall s with
    | Some _ => count s
    | None => lastFaceCount s
    end.
Proof.
  unfold narrationEffect. destruct (narrationCall s) as [d |]; [| reflexivity].
  destruct (speakDescription d s) as [s1 calls]. reflexivity.
Qed.

(** The run of the effect that its own [setLastFaceCount] triggers does
    nothing. *)
Lemma narrationEffect_settles (s : State) :
  narrationEffect (fst (narrationEffect s)) = (fst (narrationEffect s), []).
Proof.
  unfold narrationEffect at 2 3.
  destruct (narrationCall s) as [d |] eqn:N.
  - assert (En : enabled s = true).
    { unfold narrationCall in N. destruct (enabled s); [reflexivity | discriminate]. }
    destruct (speakDescription_props d s) as [Hf He].
    destruct (speakDescription d s) as [s1 calls]. simpl in *.
    unfold narrationEffect, narrationCall. simpl.
    rewrite He, En, Hf. simpl.
    rewrite Z.sub_diag. reflexivity.
  - simpl. unfold narrationEffect. rewrite N. reflexivity.
Qed.

Lemma rerender_once (s : State) : rerender s = narrationEffect s.
Proof.
  unfold rerender. pose proof (narrationEffect_settles s) as H.
  destruct (narrationEffect s) as [s1 calls1]. simpl in H. rewrite H.
  rewrite app_nil_r. reflexivity.
Qed.

Lemma step_props (fs : list Face) (en : bool) (s : State) :
  step (EvProps fs en) s = narrationEffect (setProps fs en s).
Proof. apply rerender_once. Qed.

(** C4, as the specification states it, fails: after an utterance started,
    a click on "Stop" runs [stopSpeaking], which is no utterance callback and
    sets [isSpeaking] to false at once. *)
Lemma stopSpeaking_clears_isSpeaking :
  let s := fst (run [EvProps [scenarioFace] true; EvStart]
                    (fst (mount [] true [] true))) in
  isSpeaking s = true
  /\ isUtteranceCallback EvStopSpeaking = false
  /\ isSpeaking (fst (step EvStopSpeaking s)) = false.
Proof. vm_compute. repeat split; reflexivity. Qed.

(** C4 (amended): a step of the component takes [isSpeaking] from true to
    false only if it is the [onend] or [onerror] callback of an utterance, or
    the manual [stopSpeaking] action in a browser that supports speech
    synthesis. *)
Theorem isSpeaking_cleared_only_by_callback_or_stop (e : Event) (s : State) :
  isSpeaking s = true ->
  isSpeaking (fst (step e s)) = false ->
  isUtteranceCallback e = true
  \/ (e = EvStopSpeaking /\ speechSupported s = true).
Proof.
  intros On Off. destruct e as [supported | fs en | | | | |]; simpl in *.
  - rewrite rerender_once, narrationEffect_isSpeaking in Off. simpl in Off.
    congruence.
  - rewrite rerender_once, narrationEffect_isSpeaking in Off. simpl in Off.
    congruence.
  - unfold speakDetailedDescription in Off.
    rewrite speakDescription_isSpeaking in Off. congruence.
  - right. split; [reflexivity |]. unfold stopSpeaking in Off.
    destruct (speechSupported s); [reflexivity | simpl in Off; congruence].
  - discriminate.
  - left; reflexivity.
  - left; reflexivity.
Qed.

Lemma isSpeaking_cleared_only_by_callback_or_stop_witness :
  let s := fst (run [EvProps [scenarioFace] true; EvStart]
                    (fst (mount [] true [] true))) in
  isUtteranceCallback EvEnd = true
  \/ (EvEnd = EvStopSpeaking /\ speechSupported s = true).
Proof.
  intro s.
  apply (isSpeaking_cleared_only_by_callback_or_stop EvEnd s); reflexivity.
Defined.

(** C5, as the specification states it, fails: in a browser without
    speech synthesis a batch of one face hands no utterance to the speech
    output, yet [lastFaceCount] goes from 0 to 1; the same happens when the
    component is mounted while a face is present, because the effect then
    runs before speech support is known. *)
Lemma lastFaceCount_updates_without_dispatch :
  let s := fst (mount [] true [] false) in
  let r := step (EvProps [scenarioFace] true) s in
  let m := mount [scenarioFace] true [] true in
  dispatches (snd r) = false
  /\ snd r = []
  /\ lastFaceCount s = 0
  /\ lastFaceCount (fst r) = 1
  /\ snd m = []
  /\ lastFaceCount (fst m) = 1.
Proof. vm_compute. repeat split; reflexivity. Qed.

(** C5 (amended): on every incoming batch [lastFaceCount] becomes the
    batch's count when narration is enabled and the count differs from it,
    whether or not an utterance reaches the speech output, and keeps its
    value otherwise; so after a dispatch it is the count of the batch. *)
Theorem lastFaceCount_follows_attempt (fs : list Face) (en : bool)
    (s : State) :
  let n := Z.of_nat (List.length fs) in
  let r := step (EvProps fs en) s in
  (en = true -> n <> lastFaceCount s -> lastFaceCount (fst r) = n)
  /\ (en = false \/ n = lastFaceCount s ->
      lastFaceCount (fst r) = lastFaceCount s /\ snd r = [])
  /\ (dispatches (snd r) = true -> lastFaceCount (fst r) = n).
Proof.
  intros n r. subst r. rewrite step_props.
  set (s0 := setProps fs en s).
  assert (Hl : lastFaceCount s0 = lastFaceCount s) by reflexivity.
  assert (Hc : count s0 = n) by reflexivity.
  assert (He : enabled s0 = en) by reflexivity.
  split; [| split].
  - intros En Ne. rewrite narrationEffect_lastFaceCount.
    rewrite narrationCall_enabled by congruence.
    rewrite Hc, Hl.
    destruct (Z.leb_spec 1 (Z.abs (n - lastFaceCount s))); [reflexivity | lia].
  - intros H.
    assert (N : narrationCall s0 = None).
    { destruct H as [Dis | Same].
      - apply narrationCall_disabled. congruence.
      - unfold narrationCall. destruct (enabled s0); [| reflexivity].
        fold (count s0). rewrite Hc, Hl, Same, Z.sub_diag. reflexivity. }
    unfold narrationEffect. rewrite N. split; reflexivity.
  - intros D. rewrite narrationEffect_lastFaceCount.
    unfold narrationEffect in D.
    destruct (narrationCall s0) as [d |]; [exact Hc | discriminate].
Qed.

Lemma lastFaceCount_follows_attempt_witness :
  let s := fst (mount [] true [] true) in
  let r := step (EvProps [scenarioFace] true) s in
  (lastFaceCount (fst r) = 1)
  /\ (lastFaceCount (fst (step (EvProps [] true) s)) = lastFaceCount s
      /\ snd (step (EvProps [] true) s) = [])
  /\ (lastFaceCount (fst r) = 1).
Proof.
  intros s r.
  pose proof (lastFaceCount_follows_attempt [scenarioFace] true s)
    as [H1 [_ H3]].
  pose proof (lastFaceCount_follows_attempt [] true s) as [_ [H2 _]].
  split; [| split].
  - apply H1; [reflexivity | vm_compute; discriminate].
  - apply H2. right. reflexivity.
  - apply H3. reflexivity.
Defined.

Lemma narrationEffect_speaks (s : State) (d : string) :
  narrationCall s = Some d -> speechSupported s = true ->
  narrationEffect s =
    (setLastFaceCount (count s) (setCurrentDescription d s),
     [Cancel; Speak (utteranceOf d s)]).
Proof.
  intros N Su.
  assert (En : enabled s = true).
  { unfold narrationCall in N. destruct (enabled s); [reflexivity | discriminate]. }
  unfold narrationEffect, speakDescription. rewrite N, En, Su. reflexivity.
Qed.

Lemma narrationEffect_silent (s : State) :
  narrationCall s = None -> narrationEffect s = (s, []).
Proof. intros N. unfold narrationEffect. rewrite N. reflexivity. Qed.

(** C6, as the specification states it, fails: an enabled trigger with a
    count that differs from [lastFaceCount] does not always speak.  In a
    browser without speech synthesis, with [lastFaceCount = 2], a batch of
    three faces is let through by the gate and yet no call reaches the speech
    output; and a component mounted while one face is in view, in a browser
    that has speech synthesis, lets the batch through before the support
    test is committed, and stays silent. *)
Lemma delta_gate_open_but_silent :
  let two := [scenarioFace; scenarioFace] in
  let three := [scenarioFace; scenarioFace; scenarioFace] in
  let s := fst (step (EvProps two true) (fst (mount [] true [] false))) in
  let r := step (EvProps three true) s in
  let fresh := initial [scenarioFace] true [] in
  (enabled s = true /\ lastFaceCount s = 2
   /\ narrationCall (setProps three true s) = Some (describe three)
   /\ 1 <= Z.abs (Z.of_nat (List.length three) - lastFaceCount s)
   /\ dispatches (snd r) = false
   /\ snd r = [])
  /\ (enabled fresh = true
      /\ 1 <= Z.abs (count fresh - lastFaceCount fresh)
      /\ narrationCall fresh = Some (describe [scenarioFace])
      /\ dispatches (snd (mount [scenarioFace] true [] true)) = false).
Proof. vm_compute. repeat split; try reflexivity; discriminate. Qed.

(** C6 (amended): the narration trigger does nothing when narration is
    disabled; when it is enabled it calls [speakDescription] if and only if
    the batch's count differs from [lastFaceCount] by at least 1, and that
    call hands an utterance to the speech output exactly where speech
    synthesis is supported: there the trigger speaks if and only if the
    difference is at least 1, and where it is not supported nothing is
    spoken, although the count is recorded.  With [lastFaceCount = 2], a
    batch of 2 faces makes no narration call and a batch of 3 faces or of 1
    face makes one. *)
Theorem narration_delta_gated (fs : list Face) (en : bool) (s : State) :
  let n := Z.of_nat (List.length fs) in
  let s0 := setProps fs en s in
  let r := step (EvProps fs en) s in
  (en = false -> r = (s0, []))
  /\ (en = true ->
      (narrationCall s0 = Some (describe fs)
       <-> 1 <= Z.abs (n - lastFaceCount s))
      /\ (~ 1 <= Z.abs (n - lastFaceCount s) -> r = (s0, [])))
  /\ (en = true -> speechSupported s = true ->
      (dispatches (snd r) = true <-> 1 <= Z.abs (n - lastFaceCount s)))
  /\ (en = true -> lastFaceCount s = 2 ->
      (n = 2 -> narrationCall s0 = None /\ snd r = [])
      /\ (n = 3 \/ n = 1 ->
          narrationCall s0 = Some (describe fs)
          /\ (speechSupported s = true ->
              snd r = [Cancel; Speak (utteranceOf (describe fs) s)])))
  /\ (en = true -> speechSupported s = false ->
      snd r = []
      /\ (1 <= Z.abs (n - lastFaceCount s) -> lastFaceCount (fst r) = n)).
Proof.
  intros n s0 r. subst r. rewrite step_props. fold s0.
  assert (Hcall : en = true ->
            narrationCall s0 =
              if 1 <=? Z.abs (n - lastFaceCount s)
              then Some (describe fs) else None).
  { intros En. apply (narrationCall_enabled s0). exact En. }
  split; [| split; [| split; [| split]]].
  - intros Dis. apply narrationEffect_silent, narrationCall_disabled.
    exact Dis.
  - intros En. specialize (Hcall En).
    destruct (Z.leb_spec 1 (Z.abs (n - lastFaceCount s))) as [Ge | Lt].
    + split; [split; [intros _; exact Ge | intros _; exact Hcall] |].
      intros Not. contradiction.
    + split; [split; [rewrite Hcall; discriminate | lia] |].
      intros _. apply narrationEffect_silent. exact Hcall.
  - intros En Su. specialize (Hcall En).
    destruct (Z.leb_spec 1 (Z.abs (n - lastFaceCount s))) as [Ge | Lt].
    + rewrite (narrationEffect_speaks s0 _ Hcall Su).
      split; [intros _; exact Ge | intros _; reflexivity].
    + rewrite (narrationEffect_silent s0 Hcall).
      split; [discriminate | lia].
  - intros En Last. specialize (Hcall En). rewrite Last in Hcall.
    split.
    + intros N2. rewrite N2 in Hcall. simpl in Hcall.
      split; [exact Hcall |].
      rewrite (narrationEffect_silent s0 Hcall). reflexivity.
    + intros N31.
      assert (C : narrationCall s0 = Some (describe fs)).
      { destruct N31 as [N3 | N1]; [rewrite N3 in Hcall | rewrite N1 in Hcall];
          exact Hcall. }
      split; [exact C |].
      intros Su. rewrite (narrationEffect_speaks s0 _ C Su). reflexivity.
  - intros En Un. specialize (Hcall En).
    assert (Su0 : speechSupported s0 = false) by exact Un.
    unfold narrationEffect, speakDescription. rewrite Hcall, Su0, orb_true_r.
    destruct (Z.leb_spec 1 (Z.abs (n - lastFaceCount s))) as [Ge | Lt].
    + split; [reflexivity | intros _; reflexivity].
    + split; [reflexivity | intros Ge; lia].
Qed.

Lemma narration_delta_gated_witness :
  let s := fst (step (EvProps [scenarioFace; scenarioFace] true)
                     (fst (mount [] true [] true))) in
  let three := [scenarioFace; scenarioFace; scenarioFace] in
  let u := fst (mount [] true [] false) in
  step (EvProps [scenarioFace] false) s = (setProps [scenarioFace] false s, [])
  /\ dispatches (snd (step (EvProps three true) s)) = true
  /\ snd (step (EvProps [scenarioFace; scenarioFace] true) s) = []
  /\ snd (step (EvProps three true) s)
     = [Cancel; Speak (utteranceOf (describe three) s)]
  /\ snd (step (EvProps [scenarioFace] true) s)
     = [Cancel; Speak (utteranceOf (describe [scenarioFace]) s)]
  /\ snd (step (EvProps three true) u) = [].
Proof.
  intros s three u.
  pose proof (narration_delta_gated [scenarioFace] false s) as [Off _].
  pose proof (narration_delta_gated three true s) as [_ [_ [Sp [Ex3 _]]]].
  pose proof (narration_delta_gated [scenarioFace; scenarioFace] true s)
    as [_ [_ [_ [Ex2 _]]]].
  pose proof (narration_delta_gated [scenarioFace] true s)
    as [_ [_ [_ [Ex1 _]]]].
  pose proof (narration_delta_gated three true u) as [_ [_ [_ [_ Un]]]].
  split; [apply Off; reflexivity |].
  split; [apply Sp; [reflexivity | reflexivity | vm_compute; discriminate] |].
  split; [apply Ex2; reflexivity |].
  split; [| split].
  - apply Ex3; [reflexivity | reflexivity | left; reflexivity | reflexivity].
  - apply Ex1; [reflexivity | reflexivity | right; reflexivity | reflexivity].
  - apply Un; reflexivity.
Defined.

(** Away from the boundaries by a whole pixel, the phrase is the word of
    the vertical zone followed by the word of the horizontal zone. *)
Lemma position_in_zone (face : Face) (x1 y1 x2 y2 : Q) (h v : string) :
  topLeft face = (x1, y1) -> bottomRight face = (x2, y2) ->
  Thirds.horizontalOf ((x1 + x2) / 2) h ->
  Thirds.verticalOf ((y1 + y2) / 2) v ->
  getPositionDescription face = v ++ " " ++ h.
Proof.
  intros TL BR Hh Hv. unfold getPositionDescription. rewrite TL, BR.
  unfold JS.gtb.
  assert (Eh : (if JS.ltb ((x1 + x2) / 2) (640 * (33 # 100)) then "left"
                else if JS.ltb (640 * (67 # 100)) ((x1 + x2) / 2)
                     then "right" else "center") = h).
  { destruct Hh as [[B W] | [[[B1 B2] W] | [B W]]]; subst h;
      destruct (JS.ltb ((x1 + x2) / 2) (640 * (33 # 100))) eqn:E1;
      destruct (JS.ltb (640 * (67 # 100)) ((x1 + x2) / 2)) eqn:E2;
      try apply JSFacts.ltb_lt in E1; try apply JSFacts.ltb_ge in E1;
      try apply JSFacts.ltb_lt in E2; try apply JSFacts.ltb_ge in E2;
      first [reflexivity | exfalso; lra]. }
  assert (Ev : (if JS.ltb ((y1 + y2) / 2) (480 * (33 # 100)) then "upper"
                else if JS.ltb (480 * (67 # 100)) ((y1 + y2) / 2)
                     then "lower" else "middle") = v).
  { destruct Hv as [[B W] | [[[B1 B2] W] | [B W]]]; subst v;
      destruct (JS.ltb ((y1 + y2) / 2) (480 * (33 # 100))) eqn:E1;
      destruct (JS.ltb (480 * (67 # 100)) ((y1 + y2) / 2)) eqn:E2;
      try apply JSFacts.ltb_lt in E1; try apply JSFacts.ltb_ge in E1;
      try apply JSFacts.ltb_lt in E2; try apply JSFacts.ltb_ge in E2;
      first [reflexivity | exfalso; lra]. }
  rewrite Eh, Ev. reflexivity.
Qed.



(** A face centred at (300, 200) lies in the upper left third of a
    1280 x 720 capture, yet is described against 640 x 480. *)
Example position_ignores_capture_size :
  getPositionDescription (mkFace (250, 150)%Q (350, 250)%Q (9 # 10)%Q)
  = "middle center"
  /\ JS.includes "middle center" "upper" = false.
Proof. split; reflexivity. Qed.

(** C8: with [lastFaceCount = 1], narration enabled and speech synthesis
    supported, an empty batch speaks the fixed "no faces" message and sets
    [lastFaceCount] to 0. *)
Theorem empty_batch_announced (s : State) :
  lastFaceCount s = 1 -> speechSupported s = true ->
  let r := step (EvProps [] true) s in
  snd r = [Cancel; Speak (utteranceOf noFacesMessage s)]
  /\ lastFaceCount (fst r) = 0
  /\ text (utteranceOf noFacesMessage s)
     = "No faces currently detected in the camera view. Please position yourself in front of the camera for face detection.".
Proof.
  intros Last Su r. subst r. rewrite step_props.
  rewrite (narrationEffect_speaks _ noFacesMessage).
  - repeat split; reflexivity.
  - rewrite narrationCall_enabled by reflexivity.
    change (count (setProps [] true s)) with 0.
    change (lastFaceCount (setProps [] true s)) with (lastFaceCount s).
    rewrite Last. reflexivity.
  - exact Su.
Qed.

Lemma empty_batch_announced_witness :
  let s := fst (step (EvProps [scenarioFace] true)
                     (fst (mount [] true [] true))) in
  let r := step (EvProps [] true) s in
  snd r = [Cancel; Speak (utteranceOf noFacesMessage s)]
  /\ lastFaceCount (fst r) = 0
  /\ text (utteranceOf noFacesMessage s)
     = "No faces currently detected in the camera view. Please position yourself in front of the camera for face detection.".
Proof.
  intros s. apply (empty_batch_announced s); reflexivity.
Defined.

End VoiceFacts.

(** ** The frame scheduler *)

Module SchedulerFacts.
Import Canvas2D WebcamCapture.

Lemma requestAnimationFrame_keeps (c : Closure) (w : World) :
  lastDetection (requestAnimationFrame c w) = lastDetection w
  /\ canvas (requestAnimationFrame c w) = canvas w
  /\ pending (browser (requestAnimationFrame c w)) = pending (browser w).
Proof. repeat split; reflexivity. Qed.

Lemma cancelAnimationFrame_keeps (w : World) :
  lastDetection (cancelAnimationFrame w) = lastDetection w
  /\ canvas (cancelAnimationFrame w) = canvas w
  /\ pending (browser (cancelAnimationFrame w)) = pending (browser w)
  /\ hooks (cancelAnimationFrame w) = hooks w
  /\ nextFrame (browser (cancelAnimationFrame w)) = nextFrame (browser w).
Proof.
  unfold cancelAnimationFrame.
  destruct (animationFrameRef (refs w)) as [[| id] |]; repeat split; reflexivity.
Qed.

Lemma streamingEffect_keeps (w : World) :
  lastDetection (streamingEffect w) = lastDetection w
  /\ canvas (streamingEffect w) = canvas w.
Proof.
  destruct (cancelAnimationFrame_keeps w) as [L [C _]].
  destruct (cancelAnimationFrame_keeps (cancelAnimationFrame w))
    as [L2 [C2 _]].
  unfold streamingEffect, lastDetection in *.
  destruct (effectDeps w) as [previous |];
    repeat match goal with
           | |- context [if ?b then _ else _] => destruct b
           end;
    simpl; split; congruence.
Qed.

(** A tick either leaves the last detection time alone and does not invoke
    the detector, or passes the throttle gate, invokes the detector once and
    records the time of the tick. *)
Lemma detectFaces_gate (c : Closure) (env : Env) (now : Q) (w : World) :
  (estimateTimes (snd (detectFaces c env now w)) = []
   /\ snd (detectFaces c env now w) = []
   /\ lastDetection (fst (detectFaces c env now w)) = lastDetection w
   /\ canvas (fst (detectFaces c env now w)) = canvas w)
  \/ (estimateTimes (snd (detectFaces c env now w)) = [now]
      /\ lastDetection (fst (detectFaces c env now w)) = now
      /\ (67 <= now - lastDetection w)%Q
      /\ rejected w env now = false).
Proof.
  unfold detectFaces, rejected.
  destruct (negb (c_model c) || negb (mounted w) || negb (c_isStreaming c)).
  { left. repeat split; reflexivity. }
  destruct (negb (context env) || (videoWidth env =? 0)
            || negb (readyState env =? 4)).
  { left. repeat split; reflexivity. }
  destruct (JS.ltb (now - lastDetectionTime (refs w)) 67) eqn:G.
  { left. repeat split; reflexivity. }
  right. apply JSFacts.ltb_ge in G. repeat split; try reflexivity. exact G.
Qed.

Lemma step_gate (e : Event) (w : World) :
  (estimateTimes (snd (step e w)) = []
   /\ lastDetection (fst (step e w)) = lastDetection w)
  \/ (exists now,
        estimateTimes (snd (step e w)) = [now]
        /\ lastDetection (fst (step e w)) = now
        /\ (67 <= now - lastDetection w)%Q).
Proof.
  destruct e as [ok | granted | | | | id env now | k result]; simpl.
  - left. destruct ok; split; reflexivity.
  - left. unfold startWebcam.
    destruct granted; [destruct (mounted w) |]; split; reflexivity.
  - left. unfold stopWebcam.
    destruct (mounted w && srcObject w); simpl.
    + split; [reflexivity |].
      apply (cancelAnimationFrame_keeps
               (withHooks (setIsRecording false (setIsStreaming false (hooks w)))
                          (withSrcObject false w))).
    + split; [reflexivity | apply cancelAnimationFrame_keeps].
  - left. split; reflexivity.
  - left. split; [reflexivity | apply streamingEffect_keeps].
  - destruct (find (fun f => Nat.eqb (fst f) id) (frames (browser w)))
      as [[id' c] |]; [| left; split; reflexivity].
    match goal with
    | |- context [detectFaces c env now ?w0] =>
        destruct (detectFaces_gate c env now w0) as [[E [_ [L _]]] | [E [L [G _]]]]
    end.
    + left. split; [exact E | exact L].
    + right. exists now. repeat split; [exact E | exact L | exact G].
  - left. destruct (nth_error (pending (browser w)) k) as [c |];
      [| split; reflexivity].
    unfold resume. destruct result as [predictions |]; split; reflexivity.
Qed.

Lemma estimateTimes_app (a b : list Action) :
  estimateTimes (a ++ b) = (estimateTimes a ++ estimateTimes b)%list.
Proof.
  induction a as [| x a IH]; [reflexivity |].
  destruct x; simpl; rewrite IH; reflexivity.
Qed.

Lemma run_cons (e : Event) (es : list Event) (w : World) :
  run (e :: es) w =
    (fst (run es (fst (step e w))),
     (snd (step e w) ++ snd (run es (fst (step e w))))%list).
Proof.
  simpl. destruct (step e w) as [w1 acts1]. simpl.
  destruct (run es w1) as [w2 acts2]. reflexivity.
Qed.

(** The invariant of the loop: the invocation times of a run are spaced,
    counted from the last detection time of its first state. *)
Lemma run_spaced (es : list Event) :
  forall w : World, spaced (lastDetection w) (estimateTimes (snd (run es w))).
Proof.
  induction es as [| e es IH]; intros w; [exact I |].
  rewrite run_cons. simpl snd. rewrite estimateTimes_app.
  specialize (IH (fst (step e w))).
  destruct (step_gate e w) as [[E L] | [now [E [L G]]]]; rewrite E; simpl.
  - rewrite <- L. exact IH.
  - split; [exact G |]. rewrite <- L. exact IH.
Qed.

Lemma spaced_from (ts : list Q) :
  forall (last : Q) (j : nat) (tj : Q),
    spaced last ts -> nth_error ts j = Some tj -> (67 <= tj - last)%Q.
Proof.
  induction ts as [| t ts IH]; intros last j tj S N.
  - destruct j; discriminate.
  - destruct S as [G S]. destruct j as [| j]; simpl in N.
    + injection N as <-. exact G.
    + specialize (IH t j tj S N). lra.
Qed.

Lemma spaced_pairwise (ts : list Q) :
  forall (last : Q) (i j : nat) (ti tj : Q),
    spaced last ts -> (i < j)%nat ->
    nth_error ts i = Some ti -> nth_error ts j = Some tj ->
    (67 <= tj - ti)%Q.
Proof.
  induction ts as [| t ts IH]; intros last i j ti tj S Lt Ni Nj.
  - destruct i; discriminate.
  - destruct S as [G S]. destruct j as [| j]; [lia |]. simpl in Nj.
    destruct i as [| i]; simpl in Ni.
    + injection Ni as <-. exact (spaced_from ts t j tj S Nj).
    + apply (IH t i j ti tj S); [lia | exact Ni | exact Nj].
Qed.

(** C1: whatever the events (display ticks at any times, settling
    detections, starts and stops), two invocations of the detector are at
    least 67 ms apart; and a tick that reaches the gate less than 67 ms
    after the last accepted detection requests the next frame and does not
    invoke the detector. *)
Theorem detections_67ms_apart (es : list Event) (w : World) :
  (forall (i j : nat) (ti tj : Q),
      (i < j)%nat ->
      nth_error (estimateTimes (snd (run es w))) i = Some ti ->
      nth_error (estimateTimes (snd (run es w))) j = Some tj ->
      (67 <= tj - ti)%Q)
  /\ (forall (c : Closure) (env : Env) (now : Q),
        c_model c = true -> mounted w = true -> c_isStreaming c = true ->
        (now - lastDetection w < 67)%Q ->
        detectFaces c env now w = (requestAnimationFrame c w, [])).
Proof.
  split.
  - intros i j ti tj Lt Ni Nj.
    exact (spaced_pairwise _ (lastDetection w) i j ti tj
             (run_spaced es w) Lt Ni Nj).
  - intros c env now M Mo St Lt. unfold detectFaces.
    rewrite M, Mo, St. simpl.
    apply JSFacts.ltb_lt in Lt. unfold lastDetection in Lt. rewrite Lt.
    destruct (negb (context env) || (videoWidth env =? 0)
              || negb (readyState env =? 4)); reflexivity.
Qed.

Lemma detections_67ms_apart_witness :
  let es := (untilFirstDetection
             ++ [ EvSettle 0 (Some [scenarioPrediction]);
                  EvFrame 2 ready720 120%Q;
                  EvFrame 3 ready720 150%Q;
                  EvFrame 4 ready720 170%Q ])%list in
  let w := fst (run untilFirstDetection initial) in
  estimateTimes (snd (run es initial)) = [100%Q; 170%Q]
  /\ (67 <= 170 - 100)%Q
  /\ detectFaces (mkClosure true true) ready720 120%Q w
     = (requestAnimationFrame (mkClosure true true) w, []).
Proof.
  intros es w.
  split; [reflexivity |].
  split.
  - apply (proj1 (detections_67ms_apart es initial) 0%nat 1%nat);
      [lia | reflexivity | reflexivity].
  - apply (proj2 (detections_67ms_apart [] w));
      [reflexivity | reflexivity | reflexivity | reflexivity].
Defined.







Lemma find_cancelled (id : nat) (fs : list (nat * Closure)) :
  find (fun f => Nat.eqb (fst f) id)
       (filter (fun f => negb (Nat.eqb (fst f) id)) fs) = None.
Proof.
  induction fs as [| f fs IH]; [reflexivity |]. simpl.
  destruct (Nat.eqb (fst f) id) eqn:E; simpl; [exact IH |].
  rewrite E. exact IH.
Qed.

Lemma stopWebcam_browser (w : World) :
  pending (browser (fst (stopWebcam w))) = pending (browser w)
  /\ canvas (fst (stopWebcam w)) = canvas w
  /\ nextFrame (browser (fst (stopWebcam w))) = nextFrame (browser w)
  /\ (forall id : nat,
        animationFrameRef (refs w) = Some (S id) ->
        find (fun f => Nat.eqb (fst f) (S id))
             (frames (browser (fst (stopWebcam w)))) = None).
Proof.
  unfold stopWebcam.
  destruct (mounted w && srcObject w); cbn [fst];
    match goal with
    | |- context [cancelAnimationFrame ?w0] =>
        destruct (cancelAnimationFrame_keeps w0) as [_ [C [P [_ N]]]];
        repeat split; try assumption;
        intros id R; unfold cancelAnimationFrame;
        change (refs w0) with (refs w); rewrite R; simpl;
        apply find_cancelled
    end.
Qed.

(** C2, as the specification states it, fails: a detection is in flight,
    [stopWebcam] runs and the render is committed, then the detector
    answers with one face; the completion handler calls [onFaceDetected]
    with that face and draws it on the overlay. *)
Lemma stop_race_delivers_batch :
  let w := fst (run untilFirstDetection initial) in
  let r := run [ EvStopWebcam; EvCommit;
                 EvSettle 0 (Some [scenarioPrediction]) ] w in
  pending (browser w) = [mkClosure true true]
  /\ isStreaming (hooks (fst (step EvStopWebcam w))) = false
  /\ delivered (snd r) = [[toFace scenarioPrediction]]
  /\ drawn (canvas w) = []
  /\ drawn (canvas (fst r)) = drawFace (toFace scenarioPrediction) 0.
Proof. vm_compute. repeat split; reflexivity. Qed.

(** C2 (amended): [stopWebcam] cancels the animation-frame callback
    recorded in [animationFrameRef], which then never runs; it leaves a
    detection in flight alone, and when that detection settles with
    predictions the completion handler, which checks no liveness flag, calls
    [onFaceDetected] with the batch, redraws the overlay with it and
    requests the next frame. *)
Theorem stop_cancels_frame_keeps_inflight (w : World) (k : nat)
    (c : Closure) (predictions : list Prediction) :
  nth_error (pending (browser w)) k = Some c ->
  let w1 := fst (step EvStopWebcam w) in
  let r := step (EvSettle k (Some predictions)) w1 in
  (forall (id : nat) (env : Env) (now : Q),
      animationFrameRef (refs w) = Some (S id) ->
      step (EvFrame (S id) env now) w1 = (w1, []))
  /\ nth_error (pending (browser w1)) k = Some c
  /\ snd r = [OnFaceDetected (map toFace predictions)]
  /\ drawn (canvas (fst r)) = forEach drawFace (map toFace predictions)
  /\ In (nextFrame (browser w), c) (frames (browser (fst r))).
Proof.
  intros P w1 r. subst r w1. cbn [step].
  destruct (stopWebcam_browser w) as [Pe [_ [Nx Fr]]].
  split; [| split].
  - intros id env now R. rewrite (Fr id R). reflexivity.
  - rewrite Pe. exact P.
  - rewrite Pe, P. unfold resume. cbn [fst snd].
    split; [reflexivity |]. split; [reflexivity |].
    simpl. apply in_or_app. right. left. rewrite Nx. reflexivity.
Qed.

Lemma stop_cancels_frame_keeps_inflight_witness :
  let w := fst (run untilFirstDetection initial) in
  let w1 := fst (step EvStopWebcam w) in
  let r := step (EvSettle 0 (Some [scenarioPrediction])) w1 in
  (forall (id : nat) (env : Env) (now : Q),
      animationFrameRef (refs w) = Some (S id) ->
      step (EvFrame (S id) env now) w1 = (w1, []))
  /\ nth_error (pending (browser w1)) 0 = Some (mkClosure true true)
  /\ snd r = [OnFaceDetected (map toFace [scenarioPrediction])]
  /\ drawn (canvas (fst r)) = forEach drawFace (map toFace [scenarioPrediction])
  /\ In (nextFrame (browser w), mkClosure true true)
        (frames (browser (fst r))).
Proof.
  intros w.
  apply (stop_cancels_frame_keeps_inflight w 0 (mkClosure true true)
           [scenarioPrediction]).
  reflexivity.
Defined.

End SchedulerFacts.

(** ** The overlay renderer *)

Module OverlayFacts.
Import Canvas2D.

Section ForEach.
Context {A B : Type}.
Variable body : A -> nat -> list B.



End ForEach.

Lemma labelDraws_app (a b : list Call) :
  labelDraws (a ++ b) = (labelDraws a + labelDraws b)%nat.
Proof. unfold labelDraws. rewrite filter_app, length_app. reflexivity. Qed.

Lemma labelDraws_forEach (body : Face -> nat -> list Call) :
  (forall (face : Face) (index : nat), labelDraws (body face index) = 1%nat) ->
  forall (faces : list Face) (index : nat),
    labelDraws (forEachFrom index body faces) = List.length faces.
Proof.
  intros One faces. induction faces as [| f faces IH]; intros index.
  - reflexivity.
  - simpl. rewrite labelDraws_app, One, IH. reflexivity.
Qed.

Lemma prefix_append (s t : string) : String.prefix s (s ++ t) = true.
Proof.
  induction s as [| a s IH]; simpl.
  - destruct t; reflexivity.
  - destruct (ascii_dec a a) as [_ | N]; [exact IH | contradiction].
Qed.

(** The text of a number never begins like a label. *)
Lemma show_not_label (z : Z) (rest : string) :
  String.prefix "Face " (JS.show z ++ rest) = false.
Proof.
  unfold JS.show. destruct (Z.to_int z) as [d | d]; [| reflexivity].
  destruct d; reflexivity.
Qed.

Lemma live_one_label (face : Face) (index : nat) :
  labelDraws (WebcamCapture.drawFace face index) = 1%nat.
Proof.
  destruct face as [[x1 y1] [x2 y2] p].
  unfold labelDraws, WebcamCapture.drawFace.
  cbn [topLeft bottomRight probability filter isLabelDraw].
  rewrite prefix_append. reflexivity.
Qed.

Lemma still_one_label (face : Face) (index : nat) :
  labelDraws (ImageUpload.drawFace face index) = 1%nat.
Proof.
  destruct face as [[x1 y1] [x2 y2] p].
  unfold ImageUpload.drawFace.
  cbn [topLeft bottomRight probability].
  rewrite !labelDraws_app. unfold labelDraws.
  cbn [filter isLabelDraw flat_map ImageUpload.drawCorner app].
  rewrite prefix_append, show_not_label. reflexivity.
Qed.

Lemma live_hues (face : Face) (index : nat) :
  huesOf (WebcamCapture.drawFace face index)
  = repeat (120 + Z.of_nat index * 60) 4.
Proof.
  destruct face as [[x1 y1] [x2 y2] p]. reflexivity.
Qed.

Lemma still_hues (face : Face) (index : nat) :
  huesOf (ImageUpload.drawFace face index)
  = repeat (120 + Z.of_nat index * 60) 11.
Proof.
  destruct face as [[x1 y1] [x2 y2] p]. reflexivity.
Qed.

Lemma repeat_all (hue h : Z) (n : nat) : In h (repeat hue n) -> h = hue.
Proof. apply repeat_spec. Qed.




End OverlayFacts.

(** ** The session timer *)

Module SessionFacts.
Import App.

Lemma deliver_sessionTime (acts : list WebcamCapture.Action) (s : State) :
  sessionTime (deliver acts s) = sessionTime s.
Proof.
  unfold deliver. generalize (WebcamCapture.delivered acts) as batches.
  intros batches. revert s.
  induction batches as [| b batches IH]; intros s; [reflexivity |].
  simpl. rewrite IH. reflexivity.
Qed.

Lemma deliverImage_sessionTime (outs : list ImageUploadPage.Output)
    (s : State) :
  sessionTime (deliverImage outs s) = sessionTime s.
Proof.
  unfold deliverImage. generalize (ImageUploadPage.reported outs) as batches.
  intros batches. revert s.
  induction batches as [| b batches IH]; intros s; [reflexivity |].
  simpl. rewrite IH. reflexivity.
Qed.

Lemma step_sessionTime (e : Event) (y : System) :
  sessionTime (app (step e y))
  = sessionTime (app y) + intervals [e].
Proof.
  destruct e as [| p | ok | | enabled | e' | e']; simpl;
    try (unfold intervals; simpl; lia).
  - destruct ok; unfold intervals; simpl; lia.
  - destruct (WebcamCapture.step e' (webcam y)) as [w acts]. simpl.
    rewrite deliver_sessionTime. unfold intervals. simpl. lia.
  - destruct (ImageUploadPage.step (model (app y)) e' (upload y))
      as [pg outs]. simpl.
    rewrite deliverImage_sessionTime. unfold intervals. simpl. lia.
Qed.

Lemma intervals_cons (e : Event) (es : list Event) :
  intervals (e :: es) = intervals [e] + intervals es.
Proof.
  unfold intervals. destruct e; simpl List.length; lia.
Qed.

(** C9, as the specification states it, fails: after two seconds of
    streaming the webcam is stopped; the next timer callback still takes
    [sessionTime] from 2 to 3, and starting the webcam again leaves it at 3
    instead of resetting it. *)
Lemma session_timer_ignores_detection :
  let y := run [ EvWebcam (WebcamCapture.EvModelLoaded true);
                 EvWebcam (WebcamCapture.EvStartWebcam true);
                 EvWebcam WebcamCapture.EvCommit;
                 EvInterval; EvInterval;
                 EvWebcam WebcamCapture.EvStopWebcam;
                 EvWebcam WebcamCapture.EvCommit ] start in
  let z := run [ EvInterval;
                 EvWebcam (WebcamCapture.EvStartWebcam true);
                 EvWebcam WebcamCapture.EvCommit ] y in
  active y = false
  /\ sessionTime (app y) = 2
  /\ sessionTime (app (step EvInterval y)) = 3
  /\ active z = true
  /\ sessionTime (app z) = 3.
Proof. vm_compute. repeat split; reflexivity. Qed.

(** C9 (amended): [sessionTime] goes up by one on every callback of the
    one-second timer that runs from the mount of the application, whether
    or not detection is active, and nothing else changes it: neither
    stopping nor restarting the webcam resets it.  After any events it is
    its first value plus the number of timer callbacks among them. *)
Theorem sessionTime_counts_intervals (es : list Event) :
  forall y : System,
    sessionTime (app (run es y)) = sessionTime (app y) + intervals es.
Proof.
  induction es as [| e es IH]; intros y.
  - unfold intervals. simpl. lia.
  - unfold run in *. simpl fold_left. rewrite IH, step_sessionTime.
    rewrite (intervals_cons e es). lia.
Qed.

End SessionFacts.


(** * Further properties of the code *)

(** ** Rounding *)

Module RoundFacts.

Lemma floor_ge (z : Z) (x : Q) : z <= Qfloor x <-> (inject_Z z <= x)%Q.
Proof.
  split.
  - intros H. apply Qle_trans with (inject_Z (Qfloor x)).
    + rewrite <- Zle_Qle. exact H.
    + apply Qfloor_le.
  - intros H. destruct (Z_lt_le_dec (Qfloor x) z) as [Lt | Le]; [| exact Le].
    exfalso. pose proof (Qlt_floor x) as F.
    assert (S : (inject_Z (Qfloor x + 1) <= inject_Z z)%Q).
    { rewrite <- Zle_Qle. lia. }
    apply (Qlt_irrefl x). apply Qlt_le_trans with (inject_Z (Qfloor x + 1)).
    + exact F.
    + apply Qle_trans with (inject_Z z); assumption.
Qed.

Lemma round_ge (z : Z) (x : Q) :
  z <= JS.round x <-> (inject_Z z - (1 # 2) <= x)%Q.
Proof.
  unfold JS.round. rewrite floor_ge. split; intros H; lra.
Qed.

Lemma round_le (z : Z) (x : Q) :
  JS.round x <= z <-> (x < inject_Z z + (1 # 2))%Q.
Proof.
  split.
  - intros H. destruct (Qlt_le_dec x (inject_Z z + (1 # 2))) as [L | G];
      [exact L |].
    exfalso.
    assert (R : z + 1 <= JS.round x).
    { apply round_ge. rewrite inject_Z_plus. change (inject_Z 1) with 1%Q. lra. }
    lia.
  - intros H. destruct (Z_lt_le_dec z (JS.round x)) as [Lt | Le]; [| exact Le].
    exfalso.
    assert (R : z + 1 <= JS.round x) by lia.
    apply round_ge in R. rewrite inject_Z_plus in R.
    change (inject_Z 1) with 1%Q in R. lra.
Qed.

Lemma round_comp (x y : Q) : (x == y)%Q -> JS.round x = JS.round y.
Proof.
  intros E. unfold JS.round. apply Qfloor_comp. rewrite E. reflexivity.
Qed.

(** The sum of probabilities that all lie between 0 and 1. *)
Lemma sum_bounds (fs : list Face) :
  Forall (fun f => (0 <= probability f <= 1)%Q) fs ->
  forall acc : Q,
    (acc <= fold_left (fun sum face => sum + probability face) fs acc
     <= acc + inject_Z (Z.of_nat (List.length fs)))%Q.
Proof.
  induction 1 as [| f fs [Lo Hi] _ IH]; intros acc.
  - simpl. change (inject_Z 0) with 0%Q. lra.
  - cbn [fold_left List.length]. specialize (IH (acc + probability f)%Q).
    rewrite Nat2Z.inj_succ. unfold Z.succ. rewrite inject_Z_plus.
    change (inject_Z 1) with 1%Q. lra.
Qed.

Lemma percent_bounds (x : Q) :
  (0 <= x <= 1)%Q -> 0 <= JS.round (x * 100)%Q <= 100.
Proof.
  intros [Lo Hi]. split.
  - apply round_ge. change (inject_Z 0) with 0%Q. lra.
  - apply round_le. change (inject_Z 100) with 100%Q. lra.
Qed.

End RoundFacts.

(** ** The statistics panel *)

Module StatsFacts.
Import StatsPanel.

Lemma two_digits_table :
  forallb
    (fun n =>
       String.eqb (padStart 2 "0" (JS.show (Z.of_nat n)))
                  (String (digit (Z.of_nat n / 10))
                          (String (digit (Z.of_nat n mod 10)) "")))
    (seq 0 60) = true.
Proof. vm_compute. reflexivity. Qed.

Lemma two_digits (r : Z) :
  0 <= r < 60 ->
  padStart 2 "0" (JS.show r)
  = String (digit (r / 10)) (String (digit (r mod 10)) "").
Proof.
  intros R. pose proof two_digits_table as T.
  rewrite forallb_forall in T. specialize (T (Z.to_nat r)).
  rewrite Z2Nat.id in T by lia. apply String.eqb_eq. apply T.
  apply in_seq. lia.
Qed.

(** For a non-negative whole number of seconds [formatTime] prints the
    minutes, a colon, and the seconds modulo 60 as exactly two decimal
    digits. *)
Theorem formatTime_minutes_and_two_digits (seconds : Z) :
  0 <= seconds ->
  formatTime seconds
  = JS.show (seconds / 60) ++ ":"
    ++ String (digit (seconds mod 60 / 10))
              (String (digit (seconds mod 60 mod 10)) "").
Proof.
  intros N. unfold formatTime. rewrite Z.rem_mod_nonneg by lia.
  rewrite two_digits by (apply Z.mod_pos_bound; lia). reflexivity.
Qed.

Lemma formatTime_minutes_and_two_digits_witness :
  formatTime 125 = "2:05".
Proof.
  rewrite (formatTime_minutes_and_two_digits 125); [reflexivity | lia].
Defined.

Lemma animate_clamps (current target step : Z) :
  0 < step ->
  animate current target step
  = if current <=? target then Z.min target (current + step)
    else Z.max target (current - step).
Proof.
  intros S. unfold animate.
  destruct (Z.eqb_spec current target) as [-> | Ne].
  - rewrite Z.leb_refl. lia.
  - destruct (Z.leb_spec current target) as [Le | Gt].
    + rewrite Z.sgn_pos by lia. lia.
    + rewrite Z.sgn_neg by lia. lia.
Qed.

Lemma animate_iterated (current target step : Z) (n : nat) :
  0 < step ->
  Nat.iter n (fun c => animate c target step) current
  = (if current <=? target
     then Z.min target (current + Z.of_nat n * step)
     else Z.max target (current - Z.of_nat n * step)).
Proof.
  intros S. induction n as [| n IH].
  - simpl. destruct (Z.leb_spec current target); lia.
  - rewrite Nat.iter_succ, IH, animate_clamps by exact S.
    rewrite Nat2Z.inj_succ, Z.mul_succ_l.
    set (d := Z.of_nat n * step).
    assert (0 <= d) by (subst d; nia).
    destruct (Z.leb_spec current target) as [Le | Gt].
    + destruct (Z.leb_spec (Z.min target (current + d)) target); lia.
    + destruct (Z.leb_spec (Z.max target (current - d)) target); lia.
Qed.

Lemma animate_arrives (current target step : Z) (n : nat) :
  0 < step ->
  Z.abs (target - current) <= Z.of_nat n * step ->
  Nat.iter n (fun c => animate c target step) current = target.
Proof.
  intros S D. rewrite animate_iterated by exact S.
  destruct (Z.leb_spec current target); lia.
Qed.

(** [animate] moves the displayed value towards its target by [step] per
    tick and stops on it: after [n] ticks the value is the target as soon as
    [n * step] covers the distance, and [n * step] closer otherwise, never
    beyond the target. *)
Theorem animate_reaches_target (current target step : Z) (n : nat) :
  0 < step ->
  let shown := Nat.iter n (fun c => animate c target step) current in
  shown = (if current <=? target
           then Z.min target (current + Z.of_nat n * step)
           else Z.max target (current - Z.of_nat n * step))
  /\ (shown = target <-> Z.abs (target - current) <= Z.of_nat n * step)
  /\ animate target target step = target.
Proof.
  intros S shown.
  pose proof (animate_iterated current target step n S) as Closed.
  fold shown in Closed.
  split; [exact Closed |]. split.
  - rewrite Closed. set (d := Z.of_nat n * step).
    assert (0 <= d) by (subst d; nia).
    destruct (Z.leb_spec current target); lia.
  - unfold animate. rewrite Z.eqb_refl. reflexivity.
Qed.

Lemma animate_reaches_target_witness :
  Nat.iter 10 (fun c => animate c 30 3) 0 = 30
  /\ Nat.iter 4 (fun c => animate c 30 3) 0 = 12.
Proof.
  pose proof (animate_reaches_target 0 30 3 10) as [_ [R _]]; [lia |].
  pose proof (animate_reaches_target 0 30 3 4) as [C _]; [lia |].
  split; [apply R; lia | exact C].
Defined.

Lemma iter_tick (fs : list Face) (detectionCount sessionTime : Z)
    (prev : AnimatedValues) (n : nat) :
  Nat.iter (S n) (tick fs detectionCount sessionTime) prev
  = mkValues
      (Nat.iter (S n)
         (fun c => animate c (Z.of_nat (List.length fs)) 1) (faces prev))
      (Nat.iter (S n)
         (fun c => animate c (averageConfidence fs) 2) (confidence prev))
      (Nat.iter (S n) (fun c => animate c detectionCount 3) (detections prev))
      sessionTime.
Proof.
  induction n as [| n IH]; [reflexivity |].
  change (Nat.iter (S (S n)) (tick fs detectionCount sessionTime) prev)
    with (tick fs detectionCount sessionTime
            (Nat.iter (S n) (tick fs detectionCount sessionTime) prev)).
  rewrite IH. reflexivity.
Qed.

(** While the props stay the same, the panel shows the session time after
    one tick of its 50 ms timer and shows every figure exactly once the
    ticks cover the distances: one face, two points of confidence and three
    detections per tick. *)
Theorem panel_catches_up (fs : list Face) (detectionCount sessionTime : Z)
    (prev : AnimatedValues) (n : nat) :
  (1 <= n)%nat ->
  Z.abs (Z.of_nat (List.length fs) - faces prev) <= Z.of_nat n ->
  Z.abs (averageConfidence fs - confidence prev) <= 2 * Z.of_nat n ->
  Z.abs (detectionCount - detections prev) <= 3 * Z.of_nat n ->
  Nat.iter n (tick fs detectionCount sessionTime) prev
  = settled fs detectionCount sessionTime
  /\ time (tick fs detectionCount sessionTime prev) = sessionTime.
Proof.
  intros N F C D. split; [| reflexivity].
  destruct n as [| n]; [lia |]. rewrite iter_tick. unfold settled.
  f_equal; apply animate_arrives; lia.
Qed.

Lemma panel_catches_up_witness :
  Nat.iter 48 (tick [scenarioFace] 30 7) initialValues
  = settled [scenarioFace] 30 7
  /\ time (tick [scenarioFace] 30 7 initialValues) = 7.
Proof.
  apply (panel_catches_up [scenarioFace] 30 7 initialValues 48).
  - lia.
  - vm_compute. discriminate.
  - vm_compute. discriminate.
  - vm_compute. discriminate.
Defined.

Lemma average_in_unit (fs : list Face) :
  fs <> [] ->
  Forall (fun f => (0 <= probability f <= 1)%Q) fs ->
  (0 <= sumProbability fs / inject_Z (Z.of_nat (List.length fs)) <= 1)%Q.
Proof.
  intros Ne All. pose proof (RoundFacts.sum_bounds fs All 0%Q) as [Lo Hi].
  fold (sumProbability fs) in Lo, Hi.
  assert (P : (0 < inject_Z (Z.of_nat (List.length fs)))%Q).
  { change 0%Q with (inject_Z 0). rewrite <- Zlt_Qlt.
    destruct fs; [contradiction | simpl; lia]. }
  split.
  - apply Qle_shift_div_l; [exact P | lra].
  - apply Qle_shift_div_r; [exact P | lra].
Qed.

(** When every probability lies between 0 and 1, the average confidence of
    the panel is a percentage between 0 and 100; it is 0 for no face. *)
Theorem averageConfidence_is_percentage (fs : list Face) :
  Forall (fun f => (0 <= probability f <= 1)%Q) fs ->
  0 <= averageConfidence fs <= 100
  /\ averageConfidence [] = 0.
Proof.
  intros All. split; [| reflexivity].
  destruct fs as [| f fs]; [simpl; lia |].
  unfold averageConfidence. apply RoundFacts.percent_bounds.
  apply average_in_unit; [discriminate | exact All].
Qed.

Lemma averageConfidence_is_percentage_witness :
  0 <= averageConfidence [scenarioFace; scenarioFace] <= 100
  /\ averageConfidence [] = 0.
Proof.
  apply (averageConfidence_is_percentage [scenarioFace; scenarioFace]).
  repeat constructor; simpl; lra.
Defined.

(** The percentage the narration speaks for a batch is the average
    confidence the panel shows for it: for one face the face's own rounded
    confidence, for several the rounded mean. *)
Theorem narration_speaks_panel_average (fs : list Face) :
  match fs with
  | [] => VoiceDescription.describe fs = VoiceDescription.noFacesMessage
  | [face] =>
      VoiceDescription.describe fs
      = "One face detected with " ++ JS.show (averageConfidence fs)
        ++ "% confidence, positioned in the "
        ++ VoiceDescription.getPositionDescription face ++ " of the frame."
  | _ =>
      VoiceDescription.describe fs
      = JS.show (Z.of_nat (List.length fs))
        ++ " faces detected with an average confidence of "
        ++ JS.show (averageConfidence fs) ++ "%."
  end.
Proof.
  destruct fs as [| f [| g fs]]; [reflexivity | | reflexivity].
  unfold VoiceDescription.describe, averageConfidence.
  rewrite (RoundFacts.round_comp
             (sumProbability [f] / inject_Z (Z.of_nat (List.length [f])) * 100)
             (probability f * 100)).
  - reflexivity.
  - unfold sumProbability. simpl fold_left.
    change (inject_Z (Z.of_nat (List.length [f]))) with 1%Q. field.
Qed.

End StatsFacts.

(** ** The loading screen *)

Module LoadingFacts.
Import LoadingScreen.

(** Whatever the progress, the steps shown are some done steps, then at most
    one step with the spinner, then waiting steps; there is exactly one
    spinner while the progress is at least 0 and below 100, and every step
    is done exactly from 100 on. *)
Theorem one_step_in_progress (progress : Z) :
  (exists done active : nat,
      (active <= 1)%nat /\ (done + active <= 5)%nat
      /\ statuses progress
         = (repeat Done done ++ repeat Active active
            ++ repeat Waiting (5 - done - active))%list)
  /\ (0 <= progress < 100
      <-> List.length (filter isActive (statuses progress)) = 1%nat)
  /\ (100 <= progress <-> forallb isDone (statuses progress) = true).
Proof.
  assert (Range : progress < 0 \/ 0 <= progress < 20 \/ 20 <= progress < 40
                  \/ 40 <= progress < 60 \/ 60 <= progress < 80
                  \/ 80 <= progress < 100 \/ 100 <= progress) by lia.
  unfold statuses, steps, status. cbn [map snd].
  destruct Range as [R | [R | [R | [R | [R | [R | R]]]]]];
    repeat match goal with
           | |- context [?a <=? progress] =>
               first [ rewrite (proj2 (Z.leb_le a progress)) by lia
                     | rewrite (proj2 (Z.leb_gt a progress)) by lia ]
           end;
    cbn [filter isActive isDone forallb List.length andb].
  - split; [exists 0%nat, 0%nat; repeat split; lia |].
    split; split; intros; first [lia | discriminate].
  - split; [exists 0%nat, 1%nat; repeat split; lia |].
    split; split; intros; first [lia | reflexivity | discriminate].
  - split; [exists 1%nat, 1%nat; repeat split; lia |].
    split; split; intros; first [lia | reflexivity | discriminate].
  - split; [exists 2%nat, 1%nat; repeat split; lia |].
    split; split; intros; first [lia | reflexivity | discriminate].
  - split; [exists 3%nat, 1%nat; repeat split; lia |].
    split; split; intros; first [lia | reflexivity | discriminate].
  - split; [exists 4%nat, 1%nat; repeat split; lia |].
    split; split; intros; first [lia | reflexivity | discriminate].
  - split; [exists 5%nat, 0%nat; repeat split; lia |].
    split; split; intros; first [lia | reflexivity | discriminate].
Qed.

Lemma one_step_in_progress_witness :
  List.length (filter isActive (statuses 40)) = 1%nat
  /\ forallb isDone (statuses 100) = true.
Proof.
  pose proof (one_step_in_progress 40) as [_ [A _]].
  pose proof (one_step_in_progress 100) as [_ [_ D]].
  split; [apply A; lia | apply D; lia].
Defined.

End LoadingFacts.

(** ** The frame scheduler: stopping, the loop and the frame rate *)

Module SchedulerExtras.
Import Canvas2D WebcamCapture WebcamControls.

Lemma filter_idempotent {A : Type} (f : A -> bool) (l : list A) :
  filter f (filter f l) = filter f l.
Proof.
  induction l as [| x l IH]; [reflexivity |]. simpl.
  destruct (f x) eqn:E; simpl; [rewrite E, IH; reflexivity | exact IH].
Qed.

Lemma cancelAnimationFrame_idempotent (w : World) :
  cancelAnimationFrame (cancelAnimationFrame w) = cancelAnimationFrame w.
Proof.
  unfold cancelAnimationFrame.
  destruct (animationFrameRef (refs w)) as [[| id] |] eqn:R;
    cbn [refs withBrowser]; rewrite ?R; try reflexivity.
  cbn [browser frames nextFrame pending withBrowser hooks srcObject canvas
       effectDeps].
  rewrite filter_idempotent. reflexivity.
Qed.

Lemma cancelAnimationFrame_page (w : World) :
  mounted (cancelAnimationFrame w) = mounted w
  /\ srcObject (cancelAnimationFrame w) = srcObject w
  /\ refs (cancelAnimationFrame w) = refs w.
Proof.
  unfold cancelAnimationFrame.
  destruct (animationFrameRef (refs w)) as [[| id] |];
    repeat split; reflexivity.
Qed.

(** [stopWebcam] is idempotent: a second call in a row changes nothing,
    stops no track and cancels nothing more. *)
Theorem stopWebcam_idempotent (w : World) :
  stopWebcam (fst (stopWebcam w)) = (fst (stopWebcam w), []).
Proof.
  unfold stopWebcam at 2 3.
  destruct (mounted w && srcObject w) eqn:E; cbn [fst].
  - set (w1 := withHooks _ _).
    unfold stopWebcam.
    destruct (cancelAnimationFrame_page w1) as [M [S _]].
    rewrite M, S. subst w1. cbn [srcObject withHooks withSrcObject].
    rewrite andb_false_r, cancelAnimationFrame_idempotent. reflexivity.
  - unfold stopWebcam.
    destruct (cancelAnimationFrame_page w) as [M [S _]].
    rewrite M, S, E, cancelAnimationFrame_idempotent. reflexivity.
Qed.

Lemma filter_length_le {A : Type} (f : A -> bool) (l : list A) :
  (List.length (filter f l) <= List.length l)%nat.
Proof.
  induction l as [| x l IH]; [simpl; lia |]. simpl.
  destruct (f x); simpl; lia.
Qed.

Lemma found_then_removed {A : Type} (f : A -> bool) (l : list A) (x : A) :
  find f l = Some x ->
  (List.length (filter (fun y => negb (f y)) l) < List.length l)%nat.
Proof.
  induction l as [| y l IH]; [discriminate |]. simpl.
  destruct (f y) eqn:E; simpl.
  - intros _. pose proof (filter_length_le (fun y => negb (f y)) l). lia.
  - intros F. specialize (IH F). lia.
Qed.

Lemma removeNth_length {A : Type} (l : list A) :
  forall (k : nat) (x : A),
    nth_error l k = Some x ->
    S (List.length (removeNth k l)) = List.length l.
Proof.
  induction l as [| y l IH]; intros k x N.
  - destruct k; discriminate.
  - destruct k as [| k]; simpl in *; [reflexivity |].
    rewrite (IH k x N). reflexivity.
Qed.

Lemma live_cancelAnimationFrame (w : World) :
  (live (cancelAnimationFrame w) <= live w)%nat.
Proof.
  unfold cancelAnimationFrame, live.
  destruct (animationFrameRef (refs w)) as [[| id] |]; simpl; try lia.
  pose proof (filter_length_le
                (fun f : nat * Closure => negb (Nat.eqb (fst f) (S id)))
                (frames (browser w))).
  lia.
Qed.

Lemma live_requestAnimationFrame (c : Closure) (w : World) :
  live (requestAnimationFrame c w) = S (live w).
Proof.
  unfold requestAnimationFrame, live. simpl. rewrite length_app. simpl. lia.
Qed.

Lemma live_detectFaces (c : Closure) (env : Env) (now : Q) (w : World) :
  (live (fst (detectFaces c env now w)) <= S (live w))%nat.
Proof.
  unfold detectFaces.
  repeat match goal with
         | |- context [if ?b then _ else _] => destruct b
         end;
    cbn [fst]; rewrite ?live_requestAnimationFrame; try lia.
  all: unfold live; simpl; rewrite length_app; simpl; lia.
Qed.

Lemma live_step (e : Event) (w : World) :
  (live (fst (step e w))
   <= live w + match e with EvCommit => 1 | _ => 0 end)%nat.
Proof.
  destruct e as [ok | granted | | | | id env now | k result]; cbn [step fst].
  - destruct ok; unfold live; simpl; lia.
  - unfold startWebcam.
    destruct granted; [destruct (mounted w) |]; unfold live; simpl; lia.
  - unfold stopWebcam. destruct (mounted w && srcObject w); cbn [fst];
      match goal with
      | |- context [cancelAnimationFrame ?w0] =>
          pose proof (live_cancelAnimationFrame w0) as L
      end; unfold live in *; simpl in *; lia.
  - unfold live; simpl; lia.
  - pose proof (live_cancelAnimationFrame w) as L1.
    pose proof (live_cancelAnimationFrame (cancelAnimationFrame w)) as L2.
    unfold streamingEffect.
    destruct (effectDeps w) as [previous |];
      repeat match goal with
             | |- context [if ?b then _ else _] => destruct b
             end;
      change (live (withEffectDeps ?d ?v)) with (live v);
      rewrite ?live_requestAnimationFrame; lia.
  - destruct (find (fun f => Nat.eqb (fst f) id) (frames (browser w)))
      as [[id' c] |] eqn:F; cbn [fst]; [| lia].
    pose proof (found_then_removed _ _ _ F) as R.
    match goal with
    | |- context [detectFaces c env now ?w0] =>
        pose proof (live_detectFaces c env now w0) as L;
        assert (S (live w0) <= live w)%nat by (unfold live; simpl; lia)
    end.
    lia.
  - destruct (nth_error (pending (browser w)) k) as [c |] eqn:N; cbn [fst];
      [| lia].
    pose proof (removeNth_length _ _ _ N) as R.
    unfold resume. destruct result as [predictions |]; cbn [fst];
      rewrite live_requestAnimationFrame; unfold live; simpl; lia.
Qed.

Lemma commits_cons (e : Event) (es : list Event) :
  commits (e :: es)
  = (match e with EvCommit => 1 | _ => 0 end + commits es)%nat.
Proof. unfold commits. destruct e; reflexivity. Qed.

(** The detection loop never forks on its own: along any run the number of
    its continuations (frame callbacks queued plus detector calls in
    flight) grows only at committed renders, by at most one each; ticks,
    settling detections, starts and stops never add one.  So the detector
    calls in flight are at most the continuations at the start plus the
    commits. *)
Theorem loop_grows_only_at_commits (es : list Event) :
  forall w : World,
    (live (fst (run es w)) <= live w + commits es)%nat
    /\ (List.length (pending (browser (fst (run es w))))
        <= live w + commits es)%nat.
Proof.
  induction es as [| e es IH]; intros w.
  - unfold live, commits. simpl. lia.
  - rewrite SchedulerFacts.run_cons. cbn [fst].
    destruct (IH (fst (step e w))) as [L _].
    pose proof (live_step e w) as S1. rewrite commits_cons.
    assert (Goal1 : (live (fst (run es (fst (step e w))))
                     <= live w
                        + (match e with EvCommit => 1 | _ => 0 end
                           + commits es))%nat) by lia.
    split; [exact Goal1 |].
    unfold live in Goal1 at 1. lia.
Qed.

(** A settling detection always continues the loop, also when the detector
    failed: the suspended call leaves the pending list and its closure asks
    for the next frame; on a failure the overlay and the face count stay as
    they were, the error is logged and nothing reaches [onFaceDetected]. *)
Theorem settlement_continues_loop (w : World) (k : nat) (c : Closure)
    (result : option (list Prediction)) :
  nth_error (pending (browser w)) k = Some c ->
  let r := step (EvSettle k result) w in
  frames (browser (fst r))
  = (frames (browser w) ++ [(nextFrame (browser w), c)])%list
  /\ pending (browser (fst r)) = removeNth k (pending (browser w))
  /\ animationFrameRef (refs (fst r)) = Some (nextFrame (browser w))
  /\ live (fst r) = live w
  /\ (result = None ->
      snd r = [ConsoleError] /\ canvas (fst r) = canvas w
      /\ hooks (fst r) = hooks w).
Proof.
  intros N r. subst r. cbn [step]. rewrite N.
  pose proof (removeNth_length _ _ _ N) as R.
  unfold resume. destruct result as [predictions |]; cbn [fst snd].
  - repeat split; try reflexivity; [| discriminate | discriminate | discriminate].
    rewrite live_requestAnimationFrame. unfold live. simpl. lia.
  - repeat split; try reflexivity.
    rewrite live_requestAnimationFrame. unfold live. simpl. lia.
Qed.

Lemma settlement_continues_loop_witness :
  let w := fst (run untilFirstDetection initial) in
  let r := step (EvSettle 0 None) w in
  frames (browser (fst r)) = [(2%nat, mkClosure true true)]
  /\ pending (browser (fst r)) = []
  /\ snd r = [ConsoleError]
  /\ live (fst r) = 1%nat.
Proof.
  intros w.
  destruct (settlement_continues_loop w 0 (mkClosure true true) None eq_refl)
    as [F [P [_ [L E]]]].
  destruct (E eq_refl) as [A _].
  split; [exact F |]. split; [exact P |]. split; [exact A | exact L].
Defined.

End SchedulerExtras.

(** ** The published frame rate *)

Module FrameRateFacts.
Import Canvas2D WebcamCapture.

Lemma rate_bounds (delta : Q) :
  (67 <= delta)%Q -> 0 <= JS.round (1000 / delta)%Q <= 15.
Proof.
  intros D.
  assert (P : (0 < delta)%Q) by lra.
  assert (Lo : (0 <= 1000 / delta)%Q).
  { apply Qle_shift_div_l; [exact P | lra]. }
  assert (Hi : (1000 / delta <= 1000 # 67)%Q).
  { apply Qle_shift_div_r; [exact P | lra]. }
  split.
  - apply RoundFacts.round_ge. change (inject_Z 0) with 0%Q. lra.
  - apply RoundFacts.round_le. change (inject_Z 15) with 15%Q. lra.
Qed.

Lemma cancelAnimationFrame_meter (w : World) :
  refs (cancelAnimationFrame w) = refs w
  /\ hooks (cancelAnimationFrame w) = hooks w.
Proof.
  unfold cancelAnimationFrame.
  destruct (animationFrameRef (refs w)) as [[| id] |]; split; reflexivity.
Qed.

Lemma streamingEffect_meter (w : World) :
  lastTimeRef (refs (streamingEffect w)) = lastTimeRef (refs w)
  /\ lastDetectionTime (refs (streamingEffect w)) = lastDetectionTime (refs w)
  /\ hooks (streamingEffect w) = hooks w.
Proof.
  destruct (cancelAnimationFrame_meter w) as [R1 H1].
  destruct (cancelAnimationFrame_meter (cancelAnimationFrame w)) as [R2 H2].
  unfold streamingEffect.
  destruct (effectDeps w) as [previous |];
    repeat match goal with
           | |- context [if ?b then _ else _] => destruct b
           end;
    simpl; rewrite ?R2, ?R1, ?H2, ?H1; repeat split; reflexivity.
Qed.

Lemma detectFaces_meter (c : Closure) (env : Env) (now : Q) (w : World) :
  lastTimeRef (refs w) = lastDetectionTime (refs w) ->
  0 <= fps (hooks w) <= 15 ->
  lastTimeRef (refs (fst (detectFaces c env now w)))
  = lastDetectionTime (refs (fst (detectFaces c env now w)))
  /\ 0 <= fps (hooks (fst (detectFaces c env now w))) <= 15.
Proof.
  intros T F. unfold detectFaces.
  destruct (negb (c_model c) || negb (mounted w) || negb (c_isStreaming c));
    [split; assumption |].
  destruct (negb (context env) || (videoWidth env =? 0)
            || negb (readyState env =? 4)); [split; assumption |].
  destruct (JS.ltb (now - lastDetectionTime (refs w)) 67) eqn:G;
    [split; assumption |].
  apply JSFacts.ltb_ge in G. cbn [fst refs hooks lastTimeRef lastDetectionTime].
  split; [reflexivity |].
  destruct (JS.gtb (lastTimeRef (refs w)) 0
            && ((if JS.gtb (lastTimeRef (refs w)) 0
                 then fpsCounterRef (refs w) + 1
                 else fpsCounterRef (refs w)) mod 15 =? 0));
    [| exact F].
  cbn [fps setFps]. apply rate_bounds. rewrite T. exact G.
Qed.

Lemma step_meter (e : Event) (w : World) :
  lastTimeRef (refs w) = lastDetectionTime (refs w) ->
  0 <= fps (hooks w) <= 15 ->
  lastTimeRef (refs (fst (step e w)))
  = lastDetectionTime (refs (fst (step e w)))
  /\ 0 <= fps (hooks (fst (step e w))) <= 15.
Proof.
  intros T F.
  destruct e as [ok | granted | | | | id env now | k result]; cbn [step fst].
  - destruct ok; split; assumption.
  - unfold startWebcam.
    destruct granted; [destruct (mounted w) |]; split; assumption.
  - unfold stopWebcam. destruct (mounted w && srcObject w); cbn [fst];
      match goal with
      | |- context [cancelAnimationFrame ?w0] =>
          destruct (cancelAnimationFrame_meter w0) as [R H]; rewrite R, H
      end; split; assumption.
  - split; assumption.
  - destruct (streamingEffect_meter w) as [A [B C]]. rewrite A, B, C.
    split; assumption.
  - destruct (find (fun f => Nat.eqb (fst f) id) (frames (browser w)))
      as [[id' c] |]; [| split; assumption].
    apply detectFaces_meter; assumption.
  - destruct (nth_error (pending (browser w)) k) as [c |];
      [| split; assumption].
    unfold resume. destruct result as [predictions |]; split; assumption.
Qed.

(** The frame rate the component publishes never exceeds 15: whatever
    happens after the component is mounted, [fps] stays between 0 and 15,
    because the time between two accepted cycles is what the throttle gate
    let through. *)
Theorem fps_at_most_15 (es : list Event) :
  0 <= fps (hooks (fst (run es initial))) <= 15
  /\ lastTimeRef (refs (fst (run es initial)))
     = lastDetectionTime (refs (fst (run es initial))).
Proof.
  assert (G : forall w : World,
             lastTimeRef (refs w) = lastDetectionTime (refs w) ->
             0 <= fps (hooks w) <= 15 ->
             lastTimeRef (refs (fst (run es w)))
             = lastDetectionTime (refs (fst (run es w)))
             /\ 0 <= fps (hooks (fst (run es w))) <= 15).
  { induction es as [| e es IH]; intros w T F; [split; assumption |].
    rewrite SchedulerFacts.run_cons. cbn [fst].
    destruct (step_meter e w T F) as [T1 F1]. exact (IH _ T1 F1). }
  destruct (G initial) as [T F]; [reflexivity | simpl; lia |].
  split; assumption.
Qed.

End FrameRateFacts.

(** ** The overlay: colours, labels and repeated rendering *)

Module OverlayExtras.
Import Canvas2D OverlayGeometry.

(** Rendering replaces what was drawn: after two renderings in a row, in
    either variant, the surface holds the calls of the second batch only,
    with as many labels as that batch has faces, and the empty batch leaves
    it blank; the size of the surface is kept. *)
Theorem render_replaces (first second : list Face) (cv : Canvas) :
  WebcamCapture.render second (WebcamCapture.render first cv)
  = WebcamCapture.render second cv
  /\ ImageUpload.render second (ImageUpload.render first cv)
     = ImageUpload.render second cv
  /\ labelDraws (drawn (WebcamCapture.render second
                          (WebcamCapture.render first cv)))
     = List.length second
  /\ labelDraws (drawn (ImageUpload.render second
                          (ImageUpload.render first cv)))
     = List.length second
  /\ WebcamCapture.render [] (WebcamCapture.render first cv)
     = mkCanvas (width cv) (height cv) []
  /\ ImageUpload.render [] (ImageUpload.render first cv)
     = mkCanvas (width cv) (height cv) [].
Proof.
  split; [reflexivity |]. split; [reflexivity |].
  split.
  - apply (OverlayFacts.labelDraws_forEach _ OverlayFacts.live_one_label).
  - split.
    + apply (OverlayFacts.labelDraws_forEach _ OverlayFacts.still_one_label).
    + split; reflexivity.
Qed.

Lemma hue_of_group (f : Face) (i : nat) (h : Z) :
  In h (huesOf (WebcamCapture.drawFace f i)
        ++ huesOf (ImageUpload.drawFace f i)) ->
  h = 120 + Z.of_nat i * 60.
Proof.
  rewrite OverlayFacts.live_hues, OverlayFacts.still_hues.
  intros H. apply in_app_or in H.
  destruct H as [H | H]; exact (OverlayFacts.repeat_all _ _ _ H).
Qed.

Lemma hue_mod (a : Z) : (120 + a * 60) mod 360 = 60 * ((2 + a) mod 6).
Proof.
  replace (120 + a * 60) with (60 * (2 + a)) by lia.
  change 360 with (60 * 6). rewrite Z.mul_mod_distr_l by lia. reflexivity.
Qed.
Lemma shift_mod (a b : Z) : (2 + a) mod 6 = (2 + b) mod 6 <-> a mod 6 = b mod 6.
Proof.
  split; intros E.
  - pose proof (Z.add_mod 2 a 6). pose proof (Z.add_mod 2 b 6).
    assert (H1: ((2 + a) + 4) mod 6 = ((2 + b) + 4) mod 6).
    { rewrite (Z.add_mod (2+a) 4 6), (Z.add_mod (2+b) 4 6) by lia. rewrite E. reflexivity. }
    replace (2 + a + 4) with (a + 1 * 6) in H1 by lia.
    replace (2 + b + 4) with (b + 1 * 6) in H1 by lia.
    rewrite !Z.mod_add in H1 by lia. exact H1.
  - rewrite (Z.add_mod 2 a 6), (Z.add_mod 2 b 6) by lia. rewrite E. reflexivity.
Qed.
Lemma nat_mod (i j : nat) : (i mod 6 = j mod 6)%nat <-> Z.of_nat i mod 6 = Z.of_nat j mod 6.
Proof.
  change 6 with (Z.of_nat 6). rewrite <- !Nat2Z.inj_mod. split; intros E; [rewrite E; reflexivity | apply Nat2Z.inj; exact E].
Qed.

(** The colours come round every six faces: in either variant two
    detections of a batch are drawn with the same hue angle exactly when
    their indices agree modulo 6, so up to six faces have six different
    colours and the seventh face takes the colour of the first. *)
Theorem hues_repeat_every_six (f g : Face) (i j : nat) (h1 h2 : Z) :
  In h1 (huesOf (WebcamCapture.drawFace f i)
         ++ huesOf (ImageUpload.drawFace f i)) ->
  In h2 (huesOf (WebcamCapture.drawFace g j)
         ++ huesOf (ImageUpload.drawFace g j)) ->
  (h1 mod 360 = h2 mod 360 <-> (i mod 6 = j mod 6)%nat)
  /\ (h1 = h2 <-> i = j).
Proof.
  intros H1 H2. rewrite (hue_of_group f i h1 H1), (hue_of_group g j h2 H2).
  rewrite !hue_mod, nat_mod, <- shift_mod.
  split; split; intros E; lia.
Qed.

Lemma hues_repeat_every_six_witness :
  (120 + 0 * 60) mod 360 = (120 + 6 * 60) mod 360
  /\ (120 + 0 * 60) mod 360 <> (120 + 3 * 60) mod 360.
Proof.
  pose proof (hues_repeat_every_six scenarioFace scenarioFace 0 6
                (120 + 0 * 60) (120 + 6 * 60)) as [A _];
    [left; reflexivity | left; reflexivity |].
  pose proof (hues_repeat_every_six scenarioFace scenarioFace 0 3
                (120 + 0 * 60) (120 + 3 * 60)) as [B _];
    [left; reflexivity | left; reflexivity |].
  split.
  - apply A. reflexivity.
  - intros E. apply B in E. discriminate.
Defined.

(** Labels never cover the face: in either variant every filled rectangle
    (the badge, the confidence bar) and every text of a detection lies
    either between the top of the surface and the top edge of the box, or
    below the bottom edge of the box. *)
Theorem labels_clear_of_box (x1 y1 x2 y2 p : Q) (index : nat) :
  let face := mkFace (x1, y1) (x2, y2) p in
  Forall (clearOfBox y1 y2) (WebcamCapture.drawFace face index)
  /\ Forall (clearOfBox y1 y2) (ImageUpload.drawFace face index).
Proof.
  intros face. subst face. split.
  - unfold WebcamCapture.drawFace. cbn [topLeft bottomRight probability].
    destruct (JS.gtb y1 (30 + 10)) eqn:G;
      [apply JSFacts.gtb_gt in G | apply JSFacts.gtb_le in G];
      repeat (constructor;
              [first [exact I | left; split; lra | right; lra] |]);
      constructor.
  - unfold ImageUpload.drawFace. cbn [topLeft bottomRight probability].
    cbn [flat_map ImageUpload.drawCorner app].
    destruct (JS.gtb y1 (45 + 10)) eqn:G;
      [apply JSFacts.gtb_gt in G | apply JSFacts.gtb_le in G];
      repeat (constructor;
              [first [exact I | left; split; lra | right; lra] |]);
      constructor.
Qed.

End OverlayExtras.

(** ** The narration: the speech queue, mounting and the manual action *)

Module VoiceExtras.
Import VoiceDescription SpeechSynthesis.

Lemma narration_run_cons (e : Event) (es : list Event) (s : State) :
  run (e :: es) s =
    (fst (run es (fst (step e s))),
     (snd (step e s) ++ snd (run es (fst (step e s))))%list).
Proof.
  simpl. destruct (step e s) as [s1 calls1]. simpl.
  destruct (run es s1) as [s2 calls2]. reflexivity.
Qed.

Lemma speakDescription_calls (d : string) (s : State) :
  snd (speakDescription d s) = []
  \/ snd (speakDescription d s) = [Cancel; Speak (utteranceOf d s)].
Proof.
  unfold speakDescription.
  destruct (negb (enabled s) || negb (speechSupported s));
    [left | right]; reflexivity.
Qed.

Lemma narrationEffect_calls (s : State) :
  snd (narrationEffect s) = []
  \/ exists u, snd (narrationEffect s) = [Cancel; Speak u].
Proof.
  unfold narrationEffect. destruct (narrationCall s) as [d |];
    [| left; reflexivity].
  destruct (speakDescription_calls d s) as [E | E];
    destruct (speakDescription d s) as [s1 calls]; simpl in *;
    [left; exact E | right; eexists; exact E].
Qed.

(** Every step makes no call, cancels, or cancels and then speaks once. *)
Lemma step_calls (e : Event) (s : State) :
  snd (step e s) = [] \/ snd (step e s) = [Cancel]
  \/ exists u, snd (step e s) = [Cancel; Speak u].
Proof.
  destruct e as [supported | fs en | | | | |]; cbn [step].
  - rewrite VoiceFacts.rerender_once.
    destruct (narrationEffect_calls (setSpeechSupported supported s))
      as [E | E]; [left | right; right]; exact E.
  - rewrite VoiceFacts.rerender_once.
    destruct (narrationEffect_calls (setProps fs en s))
      as [E | E]; [left | right; right]; exact E.
  - unfold speakDetailedDescription.
    destruct (speakDescription_calls (getDetailedDescription s) s) as [E | E];
      [left; exact E | right; right; eexists; exact E].
  - unfold stopSpeaking. destruct (speechSupported s);
      [right; left | left]; reflexivity.
  - left; reflexivity.
  - left; reflexivity.
  - left; reflexivity.
Qed.

(** At most one utterance at a time: the component cancels before it
    speaks, so a speech queue that held at most one utterance holds at most
    one after any events, and a step that speaks leaves exactly its own
    utterance in the queue, whatever was there. *)
Theorem at_most_one_utterance (es : list Event) :
  forall (s : State) (queue : list Utterance),
    (List.length queue <= 1)%nat ->
    (List.length (receiveAll (snd (run es s)) queue) <= 1)%nat
    /\ (forall (e : Event) (u : Utterance),
          In (Speak u) (snd (step e s)) ->
          receiveAll (snd (step e s)) queue = [u]).
Proof.
  induction es as [| e es IH]; intros s queue Q.
  - split; [exact Q |].
    intros e u I.
    destruct (step_calls e s) as [E | [E | [v E]]]; rewrite E in *.
    + contradiction.
    + destruct I as [I | []]; discriminate.
    + destruct I as [I | [I | []]]; [discriminate |].
      injection I as ->. reflexivity.
  - split.
    + rewrite narration_run_cons. cbn [snd]. unfold receiveAll.
      rewrite fold_left_app. apply IH.
      destruct (step_calls e s) as [E | [E | [v E]]]; rewrite E; simpl;
        [exact Q | lia | lia].
    + intros e' u I.
      destruct (step_calls e' s) as [E | [E | [v E]]]; rewrite E in *.
      * contradiction.
      * destruct I as [I | []]; discriminate.
      * destruct I as [I | [I | []]]; [discriminate |].
        injection I as ->. reflexivity.
Qed.

Lemma at_most_one_utterance_witness :
  let s := fst (mount [] true [] true) in
  let es := [ EvProps [scenarioFace] true; EvStart;
              EvProps [scenarioFace; scenarioFace] true; EvDescribe ] in
  (List.length (receiveAll (snd (run es s)) []) <= 1)%nat
  /\ receiveAll (snd (run es s)) []
     = [utteranceOf (getDetailedDescription (fst (run es s))) s].
Proof.
  intros s es.
  split; [| reflexivity].
  apply (at_most_one_utterance es s []). simpl. lia.
Defined.

(** Mounting the component never speaks: the effect runs once before speech
    support is known and records the count of the faces shown, so that
    enabling narration while faces are in view announces nothing until the
    count changes. *)
Theorem mount_is_silent (fs : list Face) (en : bool)
    (vs : list SpeechSynthesisVoice) (supported : bool) :
  snd (mount fs en vs supported) = []
  /\ lastFaceCount (fst (mount fs en vs supported))
     = (if en then Z.of_nat (List.length fs) else 0)
  /\ speechSupported (fst (mount fs en vs supported)) = supported.
Proof.
  unfold mount. set (s0 := initial fs en vs).
  assert (First : narrationEffect s0
                  = (setLastFaceCount
                       (if en then Z.of_nat (List.length fs) else 0) s0, [])).
  { destruct en.
    - pose proof (VoiceFacts.narrationCall_enabled s0 eq_refl) as N.
      change (count s0) with (Z.of_nat (List.length fs)) in N.
      change (lastFaceCount s0) with 0 in N. rewrite Z.sub_0_r in N.
      destruct (Z.leb_spec 1 (Z.abs (Z.of_nat (List.length fs)))) as [G | L].
      + unfold narrationEffect. rewrite N.
        rewrite VoiceFacts.speakDescription_unsupported by reflexivity.
        reflexivity.
      + rewrite (VoiceFacts.narrationEffect_silent s0 N).
        replace (Z.of_nat (List.length fs)) with 0 by lia. reflexivity.
    - apply VoiceFacts.narrationEffect_silent.
      apply VoiceFacts.narrationCall_disabled. reflexivity. }
  rewrite First. cbn [step]. rewrite VoiceFacts.rerender_once.
  set (s1 := setSpeechSupported supported _).
  assert (Quiet : narrationCall s1 = None).
  { unfold narrationCall. subst s1 s0. cbn.
    destruct en; [| reflexivity]. cbn. rewrite Z.sub_diag. reflexivity. }
  rewrite (VoiceFacts.narrationEffect_silent s1 Quiet).
  repeat split; reflexivity.
Qed.

(** After a batch was processed with narration enabled, a batch of the same
    count is silent, whichever faces it holds and wherever they are. *)
Theorem same_count_is_silent (first second : list Face) (s : State) :
  List.length first = List.length second ->
  let s1 := fst (step (EvProps first true) s) in
  lastFaceCount s1 = Z.of_nat (List.length first)
  /\ step (EvProps second true) s1 = (setProps second true s1, []).
Proof.
  intros Same s1.
  assert (L : lastFaceCount s1 = Z.of_nat (List.length first)).
  { subst s1. rewrite VoiceFacts.step_props.
    rewrite VoiceFacts.narrationEffect_lastFaceCount.
    rewrite VoiceFacts.narrationCall_enabled by reflexivity.
    change (count (setProps first true s)) with (Z.of_nat (List.length first)).
    change (lastFaceCount (setProps first true s)) with (lastFaceCount s).
    destruct (Z.leb_spec 1 (Z.abs (Z.of_nat (List.length first)
                                   - lastFaceCount s)));
      [reflexivity | lia]. }
  split; [exact L |].
  rewrite VoiceFacts.step_props. apply VoiceFacts.narrationEffect_silent.
  rewrite VoiceFacts.narrationCall_enabled by reflexivity.
  change (count (setProps second true s1)) with (Z.of_nat (List.length second)).
  change (lastFaceCount (setProps second true s1)) with (lastFaceCount s1).
  rewrite L, Same, Z.sub_diag. reflexivity.
Qed.

Lemma same_count_is_silent_witness :
  let moved := mkFace (400, 300)%Q (500, 400)%Q (5 # 10)%Q in
  let s1 := fst (step (EvProps [scenarioFace] true)
                      (fst (mount [] true [] true))) in
  lastFaceCount s1 = 1
  /\ step (EvProps [moved] true) s1 = (setProps [moved] true s1, []).
Proof.
  intros moved.
  apply (same_count_is_silent [scenarioFace] [moved]
           (fst (mount [] true [] true))).
  reflexivity.
Defined.

Lemma narrationEffect_ignores_description (d : string) (s : State) :
  snd (narrationEffect (setCurrentDescription d s)) = snd (narrationEffect s)
  /\ lastFaceCount (fst (narrationEffect (setCurrentDescription d s)))
     = lastFaceCount (fst (narrationEffect s)).
Proof.
  unfold narrationEffect.
  change (narrationCall (setCurrentDescription d s)) with (narrationCall s).
  destruct (narrationCall s) as [d' |]; [| split; reflexivity].
  unfold speakDescription. cbn [enabled speechSupported setCurrentDescription].
  destruct (negb (enabled s) || negb (speechSupported s)); split; reflexivity.
Qed.

(** The manual "describe current view" action passes by the delta gate and
    leaves it alone: with narration enabled and speech supported it always
    speaks the detailed description, whatever [lastFaceCount] is, and it
    changes neither [lastFaceCount] nor what the next batch will announce. *)
Theorem describe_bypasses_gate (s : State) (fs : list Face) (en : bool) :
  (enabled s = true -> speechSupported s = true ->
   snd (step EvDescribe s)
   = [Cancel; Speak (utteranceOf (getDetailedDescription s) s)])
  /\ lastFaceCount (fst (step EvDescribe s)) = lastFaceCount s
  /\ snd (step (EvProps fs en) (fst (step EvDescribe s)))
     = snd (step (EvProps fs en) s)
  /\ lastFaceCount (fst (step (EvProps fs en) (fst (step EvDescribe s))))
     = lastFaceCount (fst (step (EvProps fs en) s)).
Proof.
  cbn [step]. unfold speakDetailedDescription.
  split; [| split].
  - intros En Su. unfold speakDescription. rewrite En, Su. reflexivity.
  - apply VoiceFacts.speakDescription_lastFaceCount.
  - rewrite !VoiceFacts.rerender_once. unfold speakDescription.
    destruct (negb (enabled s) || negb (speechSupported s)); cbn [fst];
      [split; reflexivity |].
    apply (narrationEffect_ignores_description
             (getDetailedDescription s) (setProps fs en s)).
Qed.

Lemma describe_bypasses_gate_witness :
  let s := fst (step (EvProps [scenarioFace] true)
                     (fst (mount [] true [] true))) in
  snd (step EvDescribe s)
  = [Cancel; Speak (utteranceOf (getDetailedDescription s) s)]
  /\ lastFaceCount (fst (step EvDescribe s)) = 1.
Proof.
  intros s.
  pose proof (describe_bypasses_gate s [] true) as [Sp [L _]].
  split; [apply Sp; reflexivity | rewrite L; reflexivity].
Defined.

Lemma dispatches_app (a b : list SpeechCall) :
  dispatches (a ++ b) = dispatches a || dispatches b.
Proof. unfold dispatches. apply existsb_app. Qed.

Lemma unsupported_step (e : Event) (s : State) :
  speechSupported s = false -> e <> EvSupport true ->
  snd (step e s) = [] /\ speechSupported (fst (step e s)) = false.
Proof.
  intros Su Ne.
  assert (Eff : forall t : State,
            speechSupported t = false ->
            snd (narrationEffect t) = []
            /\ speechSupported (fst (narrationEffect t)) = false).
  { intros t St. unfold narrationEffect.
    destruct (narrationCall t) as [d |]; [| split; [reflexivity | exact St]].
    rewrite VoiceFacts.speakDescription_unsupported by exact St.
    split; [reflexivity | exact St]. }
  destruct e as [supported | fs en | | | | |]; cbn [step].
  - destruct supported; [congruence |].
    rewrite VoiceFacts.rerender_once. apply Eff. reflexivity.
  - rewrite VoiceFacts.rerender_once. apply Eff. exact Su.
  - unfold speakDetailedDescription.
    rewrite VoiceFacts.speakDescription_unsupported by exact Su.
    split; [reflexivity | exact Su].
  - unfold stopSpeaking. rewrite Su. split; [reflexivity | exact Su].
  - split; [reflexivity | exact Su].
  - split; [reflexivity | exact Su].
  - split; [reflexivity | exact Su].
Qed.

(** Without speech synthesis the component never touches the speech
    output: as long as support is not detected, no event, batch or button
    makes it cancel or speak. *)
Theorem unsupported_never_speaks (es : list Event) :
  forall s : State,
    speechSupported s = false ->
    Forall (fun e => e <> EvSupport true) es ->
    snd (run es s) = [] /\ speechSupported (fst (run es s)) = false.
Proof.
  induction es as [| e es IH]; intros s Su All.
  - split; [reflexivity | exact Su].
  - inversion All as [| e' es' Ne Rest]; subst.
    destruct (unsupported_step e s Su Ne) as [C S1].
    rewrite narration_run_cons. cbn [fst snd]. rewrite C.
    exact (IH _ S1 Rest).
Qed.

Lemma unsupported_never_speaks_witness :
  let s := fst (mount [] true [] false) in
  snd (run [ EvProps [scenarioFace] true; EvDescribe; EvStopSpeaking;
             EvProps [] true ] s) = [].
Proof.
  intros s.
  apply (unsupported_never_speaks
           [ EvProps [scenarioFace] true; EvDescribe; EvStopSpeaking;
             EvProps [] true ] s).
  - reflexivity.
  - repeat constructor; discriminate.
Defined.

(** The quality sentence of the detailed description follows the rounded
    percentage: a face is "excellent" from 94.51 percent on, "good" from
    79.51 to 94.49 percent and "fair" up to 79.49 percent (the percentages
    in between round to one side or the other of 95 and 80); there is no
    fourth sentence. *)
Theorem quality_tiers (face : Face) (index : nat) :
  let quality := nth 1 (detailOf face index) "" in
  ((9451 # 10000 <= probability face)%Q ->
   quality = "Excellent detection quality. ")
  /\ ((7951 # 10000 <= probability face <= 9449 # 10000)%Q ->
      quality = "Good detection quality. ")
  /\ ((probability face <= 7949 # 10000)%Q ->
      quality
      = "Fair detection quality - consider improving lighting or positioning. ")
  /\ (quality = "Excellent detection quality. "
      \/ quality = "Good detection quality. "
      \/ quality
         = "Fair detection quality - consider improving lighting or positioning. ").
Proof.
  destruct face as [[x1 y1] [x2 y2] p].
  unfold detailOf. cbn [topLeft bottomRight probability nth].
  pose proof (RoundFacts.round_ge 95 (p * 100)) as E.
  pose proof (RoundFacts.round_ge 80 (p * 100)) as G.
  change (inject_Z 95) with 95%Q in E. change (inject_Z 80) with 80%Q in G.
  destruct (Z.leb_spec 95 (JS.round (p * 100))) as [A | A];
    [| destruct (Z.leb_spec 80 (JS.round (p * 100))) as [B | B]].
  - apply E in A.
    split; [intros _; reflexivity |].
    split; [intros [_ C]; exfalso; lra |].
    split; [intros C; exfalso; lra |].
    left. reflexivity.
  - apply G in B.
    assert (NA : ~ (95 - (1 # 2) <= p * 100)%Q)
      by (intros C; apply E in C; lia).
    split; [intros C; exfalso; apply NA; lra |].
    split; [intros _; reflexivity |].
    split; [intros C; exfalso; lra |].
    right. left. reflexivity.
  - assert (NB : ~ (80 - (1 # 2) <= p * 100)%Q)
      by (intros C; apply G in C; lia).
    split; [intros C; exfalso; apply NB; lra |].
    split; [intros [C _]; exfalso; apply NB; lra |].
    split; [intros _; reflexivity |].
    right. right. reflexivity.
Qed.

Lemma quality_tiers_witness :
  nth 1 (detailOf scenarioFace 0) "" = "Excellent detection quality. "
  /\ nth 1 (detailOf (mkFace (0, 0)%Q (1, 1)%Q (9 # 10)%Q) 0) ""
     = "Good detection quality. "
  /\ nth 1 (detailOf (mkFace (0, 0)%Q (1, 1)%Q (1 # 2)%Q) 0) ""
     = "Fair detection quality - consider improving lighting or positioning. ".
Proof.
  pose proof (quality_tiers scenarioFace 0) as [E _].
  pose proof (quality_tiers (mkFace (0, 0)%Q (1, 1)%Q (9 # 10)%Q) 0)
    as [_ [G _]].
  pose proof (quality_tiers (mkFace (0, 0)%Q (1, 1)%Q (1 # 2)%Q) 0)
    as [_ [_ [F _]]].
  split; [| split].
  - apply E. vm_compute. discriminate.
  - apply G. split; vm_compute; discriminate.
  - apply F. vm_compute. discriminate.
Defined.

End VoiceExtras.

(** ** Left and right in the position phrase *)

Module MirrorFacts.
Import VoiceDescription Mirror.

Lemma mirror_zone (cx : Q) (h : string) :
  Thirds.horizontalOf cx h ->
  exists h' : string,
    Thirds.horizontalOf (640 - cx) h'
    /\ forall v : string,
         v = "upper" \/ v = "middle" \/ v = "lower" ->
         mirrored (v ++ " " ++ h) = v ++ " " ++ h'.
Proof.
  intros [[B W] | [[[B1 B2] W] | [B W]]]; subst h.
  - exists "right". split.
    + right. right. split; [lra | reflexivity].
    + intros v [V | [V | V]]; subst v; reflexivity.
  - exists "center". split.
    + right. left. split; [split; lra | reflexivity].
    + intros v [V | [V | V]]; subst v; reflexivity.
  - exists "left". split.
    + left. split; [lra | reflexivity].
    + intros v [V | [V | V]]; subst v; reflexivity.
Qed.

(** The position phrase is symmetric: a face whose centre is a whole pixel
    away from the boundaries, mirrored across the vertical axis of the
    assumed 640 x 480 frame, gets the same phrase with left and right
    exchanged, because the boundaries 0.33 and 0.67 mirror each other. *)
Theorem mirror_swaps_left_and_right (face : Face) (x1 y1 x2 y2 : Q)
    (h v : string) :
  topLeft face = (x1, y1) -> bottomRight face = (x2, y2) ->
  Thirds.horizontalOf ((x1 + x2) / 2) h ->
  Thirds.verticalOf ((y1 + y2) / 2) v ->
  getPositionDescription (mirror face)
  = mirrored (getPositionDescription face).
Proof.
  intros TL BR Hh Hv.
  rewrite (VoiceFacts.position_in_zone face x1 y1 x2 y2 h v TL BR Hh Hv).
  destruct (mirror_zone _ h Hh) as [h' [Hh' M]].
  assert (V : v = "upper" \/ v = "middle" \/ v = "lower").
  { destruct Hv as [[_ W] | [[_ W] | [_ W]]]; tauto. }
  rewrite (M v V).
  apply (VoiceFacts.position_in_zone (mirror face)
           (640 - x2) y1 (640 - x1) y2 h' v).
  - unfold mirror. rewrite TL, BR. reflexivity.
  - unfold mirror. rewrite TL, BR. reflexivity.
  - destruct Hh' as [[B W] | [[[B1 B2] W] | [B W]]];
      [left | right; left | right; right];
      (split; [| exact W]);
      unfold Qdiv in *; change (/ 2)%Q with (1 # 2)%Q in *;
      try split; lra.
  - exact Hv.
Qed.

Lemma mirror_swaps_left_and_right_witness :
  getPositionDescription (mirror scenarioFace) = "upper right"
  /\ getPositionDescription (mirror scenarioFace)
     = mirrored (getPositionDescription scenarioFace).
Proof.
  split; [reflexivity |].
  apply (mirror_swaps_left_and_right scenarioFace 10%Q 10%Q 60%Q 80%Q
           "left" "upper");
    [reflexivity | reflexivity | |]; left; split;
    [vm_compute; discriminate | reflexivity
    | vm_compute; discriminate | reflexivity].
Defined.

End MirrorFacts.

(** ** The still-image analysis *)

Module ImageUploadFacts.
Import Canvas2D ImageUpload ImageUploadFlow.

(** [isProcessing] brackets the detector call: the call is made exactly
    when a model is loaded, an image is selected and the context exists,
    and then [isProcessing] is true while it is outstanding; every
    settlement, success or failure, clears it; the whole function is the
    first phase followed by the settlement. *)
Theorem processing_brackets_the_call (model context : bool)
    (naturalWidth naturalHeight : Z) (result : option (list Prediction))
    (s : State) :
  let b := beginDetection model context naturalWidth naturalHeight s in
  (snd b = true
   <-> model = true /\ selectedImage s <> None /\ context = true)
  /\ (snd b = true ->
      isProcessing (fst b) = true
      /\ canvas (fst b) = mkCanvas naturalWidth naturalHeight [])
  /\ (model = true -> selectedImage s <> None -> context = false ->
      isProcessing (fst b) = false)
  /\ isProcessing (fst (settleDetection result (fst b))) = false
  /\ detectFacesInImage model context naturalWidth naturalHeight result s
     = if snd b then settleDetection result (fst b) else (fst b, []).
Proof.
  unfold beginDetection, detectFacesInImage, settleDetection.
  destruct model, (selectedImage s) as [src |], context, result;
    cbn; repeat split; intros; try reflexivity; try discriminate;
    try congruence;
    repeat match goal with
           | H : _ /\ _ |- _ => destruct H
           end; try discriminate; try congruence.
Qed.

Lemma processing_brackets_the_call_witness :
  let s := handleImageUpload "data:image/png;base64,AAAA" initial in
  let b := beginDetection true true 800 600 s in
  snd b = true
  /\ isProcessing (fst b) = true
  /\ canvas (fst b) = mkCanvas 800 600 [].
Proof.
  intros s b.
  pose proof (processing_brackets_the_call true true 800 600 None s)
    as [Called [Flag _]].
  assert (C : snd b = true).
  { apply Called. repeat split; discriminate. }
  split; [exact C |]. apply Flag. exact C.
Defined.

(** A successful analysis and its export agree: the faces reported to the
    parent are the faces kept and drawn, the overlay takes the natural size
    of the image and holds one label per face, the downloaded picture is the
    image under exactly that overlay, and a later [onLoad] of the image
    does not start the analysis again. *)
Theorem export_shows_the_analysis (src : string)
    (naturalWidth naturalHeight now : Z) (predictions : list Prediction)
    (s : State) :
  selectedImage s = Some src ->
  let r := detectFacesInImage true true naturalWidth naturalHeight
             (Some predictions) s in
  let faces := map toFace predictions in
  snd r = [OnFaceDetected faces]
  /\ detectedFaces (fst r) = faces
  /\ analysisComplete (fst r) = true
  /\ isProcessing (fst r) = false
  /\ downloadResult true now (fst r)
     = Some (mkDownload ("face-detection-result-" ++ JS.show now ++ ".png")
               naturalWidth naturalHeight
               [ImageLayer src; OverlayLayer (forEach drawFace faces)])
  /\ labelDraws (forEach drawFace faces) = List.length predictions
  /\ imageOnLoad true true naturalWidth naturalHeight (fst r) = (fst r, false).
Proof.
  intros Sel r faces. subst r faces.
  unfold detectFacesInImage. rewrite Sel. cbn [negb fst snd].
  unfold downloadResult, imageOnLoad.
  cbn [selectedImage detectedFaces analysisComplete isProcessing canvas
       negb andb].
  repeat split.
  unfold forEach.
  rewrite (OverlayFacts.labelDraws_forEach _ OverlayFacts.still_one_label).
  apply length_map.
Qed.

Lemma export_shows_the_analysis_witness :
  let s := handleImageUpload "data:image/png;base64,AAAA" initial in
  let r := detectFacesInImage true true 800 600
             (Some [WebcamCapture.scenarioPrediction]) s in
  snd r = [OnFaceDetected [scenarioFace]]
  /\ downloadResult true 1700000000000 (fst r)
     = Some (mkDownload "face-detection-result-1700000000000.png" 800 600
               [ ImageLayer "data:image/png;base64,AAAA";
                 OverlayLayer (drawFace scenarioFace 0) ]).
Proof.
  intros s.
  destruct (export_shows_the_analysis "data:image/png;base64,AAAA" 800 600
              1700000000000 [WebcamCapture.scenarioPrediction] s eq_refl)
    as [A [_ [_ [_ [D _]]]]].
  split; [exact A | exact D].
Defined.

(** A failed analysis wipes the overlay but keeps the old results: when the
    detector rejects, the error is logged and nothing reaches the parent,
    the overlay is left blank at the image's natural size, and the faces
    and the completion flag stay as they were.  So after a successful
    analysis a failed one leaves the list of faces in place while the
    export shows the image with no box at all. *)
Theorem failed_analysis_keeps_old_results (src : string)
    (naturalWidth naturalHeight now : Z) (predictions : list Prediction)
    (s : State) :
  selectedImage s = Some src ->
  let r := detectFacesInImage true true naturalWidth naturalHeight None s in
  let good := fst (detectFacesInImage true true naturalWidth naturalHeight
                     (Some predictions) s) in
  let bad := fst (detectFacesInImage true true naturalWidth naturalHeight
                    None good) in
  (snd r = [ConsoleError]
   /\ canvas (fst r) = mkCanvas naturalWidth naturalHeight []
   /\ detectedFaces (fst r) = detectedFaces s
   /\ analysisComplete (fst r) = analysisComplete s
   /\ isProcessing (fst r) = false
   /\ selectedImage (fst r) = Some src)
  /\ (detectedFaces bad = map toFace predictions
      /\ analysisComplete bad = true
      /\ downloadResult true now bad
         = Some (mkDownload
                   ("face-detection-result-" ++ JS.show now ++ ".png")
                   naturalWidth naturalHeight
                   [ImageLayer src; OverlayLayer []])).
Proof.
  intros Sel r good bad. subst r bad good.
  unfold detectFacesInImage. rewrite Sel. cbn [negb fst snd selectedImage].
  unfold downloadResult.
  cbn [selectedImage detectedFaces analysisComplete isProcessing canvas
       negb width height drawn resize].
  repeat split.
Qed.

Lemma failed_analysis_keeps_old_results_witness :
  let s := handleImageUpload "data:image/png;base64,AAAA" initial in
  let good := fst (detectFacesInImage true true 800 600
                     (Some [WebcamCapture.scenarioPrediction]) s) in
  let bad := fst (detectFacesInImage true true 800 600 None good) in
  drawn (canvas good) = drawFace scenarioFace 0
  /\ canvas bad = mkCanvas 800 600 []
  /\ detectedFaces bad = [scenarioFace]
  /\ analysisComplete bad = true.
Proof.
  intros s good bad.
  destruct (failed_analysis_keeps_old_results "data:image/png;base64,AAAA"
              800 600 0 [WebcamCapture.scenarioPrediction] s eq_refl)
    as [_ [F [A _]]].
  split; [reflexivity |]. split; [reflexivity |]. split; [exact F | exact A].
Defined.





End ImageUploadFacts.

(** ** The detection counter of the application *)

Module AppFacts.
Import App AppTrace.

Lemma last_ignores_default {A : Type} (l : list A) :
  forall x d d' : A, last (x :: l) d = last (x :: l) d'.
Proof.
  induction l as [| y l IH]; intros x d d'; [reflexivity |].
  change (last (y :: l) d = last (y :: l) d'). apply IH.
Qed.

Lemma last_app_default {A : Type} (a b : list A) (d : A) :
  last (a ++ b) d = last b (last a d).
Proof.
  induction a as [| x a IH]; [reflexivity |].
  destruct a as [| y a].
  - destruct b as [| c b]; [reflexivity |].
    change (last (c :: b) d = last (c :: b) x). apply last_ignores_default.
  - change (last ((y :: a) ++ b) d = last b (last (y :: a) d)). exact IH.
Qed.

Lemma handle_all (bs : list (list Face)) :
  forall s : State,
    let s' := fold_left (fun st batch => handleFaceDetected batch st) bs s in
    detectionCount s'
    = detectionCount s + Z.of_nat (List.length (filter nonEmpty bs))
    /\ faces s' = last bs (faces s)
    /\ sessionTime s' = sessionTime s
    /\ voiceEnabled s' = voiceEnabled s.
Proof.
  induction bs as [| b bs IH]; intros s.
  - simpl. repeat split; lia.
  - cbn [fold_left]. destruct (IH (handleFaceDetected b s)) as [D [F [T V]]].
    cbn zeta. rewrite D, F, T, V.
    repeat split.
    + destruct b; cbn [handleFaceDetected detectionCount filter nonEmpty];
        [lia |]. cbn [List.length]. lia.
    + destruct bs as [| c bs]; [reflexivity |].
      change (last (b :: c :: bs) (faces s)) with (last (c :: bs) (faces s)).
      apply last_ignores_default.
Qed.

Lemma step_batches (e : Event) (y : System) :
  detectionCount (app (step e y))
  = detectionCount (app y)
    + Z.of_nat (List.length (filter nonEmpty (batches [e] y)))
  /\ faces (app (step e y)) = last (batches [e] y) (faces (app y)).
Proof.
  destruct e as [| p | ok | | enabled | e' | e']; cbn [batches app_nil_r];
    try (cbn; split; [lia | reflexivity]).
  - destruct ok; cbn; split; (lia || reflexivity).
  - rewrite app_nil_r. cbn [step].
    destruct (WebcamCapture.step e' (webcam y)) as [w acts]. cbn [app snd].
    unfold deliver.
    destruct (handle_all (WebcamCapture.delivered acts) (app y))
      as [D [F _]].
    split; assumption.
  - rewrite app_nil_r. cbn [step].
    destruct (ImageUploadPage.step (model (app y)) e' (upload y))
      as [pg outs]. cbn [app snd].
    unfold deliverImage.
    destruct (handle_all (ImageUploadPage.reported outs) (app y))
      as [D [F _]].
    split; assumption.
Qed.

(** The detection counter counts events, not faces: after any events it has
    grown by the number of non-empty batches that the webcam and the image
    analysis handed to [handleFaceDetected], an empty batch leaves it
    alone, and the faces shown are those of the last batch handed over by
    either of them. *)
Theorem detectionCount_counts_batches (es : list Event) :
  forall y : System,
    detectionCount (app (run es y))
    = detectionCount (app y)
      + Z.of_nat (List.length (filter nonEmpty (batches es y)))
    /\ faces (app (run es y)) = last (batches es y) (faces (app y)).
Proof.
  induction es as [| e es IH]; intros y.
  - simpl. split; [lia | reflexivity].
  - change (run (e :: es) y) with (run es (step e y)).
    destruct (IH (step e y)) as [D F].
    destruct (step_batches e y) as [D1 F1].
    cbn [batches] in D1, F1. rewrite app_nil_r in D1, F1.
    cbn [batches]. rewrite filter_app, length_app, last_app_default.
    rewrite D, F, D1, F1. split; [lia | reflexivity].
Qed.

(** A still image analysed with one face raises the counter without any
    webcam batch. *)
Example image_analysis_is_counted :
  let y := run [ EvModelSettled true; EvTransitionDone;
                 EvImage (ImageUploadPage.EvFile "data:image/png;base64,AAAA");
                 EvImage (ImageUploadPage.EvImageLoad true 800 600);
                 EvImage (ImageUploadPage.EvSettled 0
                            (Some [WebcamCapture.scenarioPrediction])) ]
               start in
  detectionCount (app y) = 1 /\ faces (app y) = [scenarioFace].
Proof. vm_compute. split; reflexivity. Qed.

End AppFacts.

(** ** When the detector is called, and the streaming flag *)

Module AcceptanceFacts.
Import Canvas2D WebcamCapture.

Lemma detectFaces_accepts (c : Closure) (env : Env) (now : Q) (w : World) :
  snd (detectFaces c env now w) = [EstimateFaces now]
  <-> (c_model c = true /\ c_isStreaming c = true /\ mounted w = true
       /\ context env = true /\ videoWidth env <> 0 /\ readyState env = 4
       /\ (67 <= now - lastDetection w)%Q).
Proof.
  unfold detectFaces, lastDetection.
  destruct (c_model c), (mounted w), (c_isStreaming c); cbn [negb orb];
    try (split; [discriminate | intros H; decompose [and] H; congruence]).
  destruct (context env); cbn [negb orb];
    try (split; [discriminate | intros H; decompose [and] H; congruence]).
  destruct (Z.eqb_spec (videoWidth env) 0) as [W0 | W0]; cbn [orb];
    try (split; [discriminate | intros H; decompose [and] H; contradiction]).
  destruct (Z.eqb_spec (readyState env) 4) as [R4 | R4]; cbn [negb];
    try (split; [discriminate | intros H; decompose [and] H; contradiction]).
  destruct (JS.ltb (now - lastDetectionTime (refs w)) 67) eqn:G.
  - apply JSFacts.ltb_lt in G.
    split; [discriminate | intros H; decompose [and] H; lra].
  - apply JSFacts.ltb_ge in G. split; [intros _ | reflexivity].
    repeat split; assumption.
Qed.

Lemma detectFaces_silent_or_accepts (c : Closure) (env : Env) (now : Q)
    (w : World) :
  snd (detectFaces c env now w) = []
  \/ snd (detectFaces c env now w) = [EstimateFaces now].
Proof.
  unfold detectFaces.
  repeat match goal with
         | |- context [if ?b then _ else _] => destruct b
         end; first [left; reflexivity | right; reflexivity].
Qed.

(** The detector is called exactly on a display tick whose callback is
    still queued, whose closure captured a loaded model and a running
    stream, with the video and canvas on the page, a 2D context, a video
    frame of non-zero width in ready state 4, and at least 67 ms since the
    last accepted detection; no other event ever calls it. *)
Theorem detector_called_exactly_when (e : Event) (now : Q) (w : World) :
  In (EstimateFaces now) (snd (step e w))
  <-> exists (id id' : nat) (env : Env) (c : Closure),
        e = EvFrame id env now
        /\ find (fun f => Nat.eqb (fst f) id) (frames (browser w))
           = Some (id', c)
        /\ c_model c = true /\ c_isStreaming c = true /\ mounted w = true
        /\ context env = true /\ videoWidth env <> 0 /\ readyState env = 4
        /\ (67 <= now - lastDetection w)%Q.
Proof.
  split.
  - intros I.
    destruct e as [ok | granted | | | | id env t | k result]; cbn [step] in I.
    + destruct I.
    + destruct I.
    + unfold stopWebcam in I. destruct (mounted w && srcObject w);
        cbn [snd] in I; [destruct I as [I | []]; discriminate | destruct I].
    + destruct I.
    + destruct I.
    + destruct (find (fun f => Nat.eqb (fst f) id) (frames (browser w)))
        as [[id' c] |] eqn:F; [| destruct I].
      match type of I with
      | In _ (snd (detectFaces c env t ?w0)) =>
          destruct (detectFaces_silent_or_accepts c env t w0) as [E | E];
          rewrite E in I; [destruct I |];
          destruct I as [I | []]; injection I as ->;
          apply detectFaces_accepts in E
      end.
      exists id, id', env, c. split; [reflexivity |]. split; [exact F |].
      exact E.
    + destruct (nth_error (pending (browser w)) k) as [c |]; [| destruct I].
      unfold resume in I. destruct result; cbn [snd] in I;
        destruct I as [I | []]; discriminate.
  - intros [id [id' [env [c [-> [F A]]]]]]. cbn [step]. rewrite F.
    match goal with
    | |- In _ (snd (detectFaces c env now ?w0)) =>
        assert (E : snd (detectFaces c env now w0) = [EstimateFaces now])
          by (apply detectFaces_accepts; exact A)
    end.
    rewrite E. left. reflexivity.
Qed.

Lemma detector_called_exactly_when_witness :
  let w := fst (run [EvModelLoaded true; EvStartWebcam true; EvCommit]
                    initial) in
  In (EstimateFaces 100%Q) (snd (step (EvFrame 1 ready720 100%Q) w)).
Proof.
  intros w.
  apply (proj2 (detector_called_exactly_when
                  (EvFrame 1 ready720 100%Q) 100%Q w)).
  exists 1%nat, 1%nat, ready720, (mkClosure true true).
  repeat split; try reflexivity; try discriminate.
Defined.

Lemma step_streaming (e : Event) (w : World) :
  isStreaming (hooks w) = srcObject w ->
  isStreaming (hooks (fst (step e w))) = srcObject (fst (step e w)).
Proof.
  intros I.
  destruct e as [ok | granted | | | | id env now | k result]; cbn [step fst].
  - destruct ok; exact I.
  - unfold startWebcam.
    destruct granted; [destruct (mounted w) |]; try exact I; reflexivity.
  - unfold stopWebcam. destruct (mounted w && srcObject w); cbn [fst];
      match goal with
      | |- context [cancelAnimationFrame ?w0] =>
          destruct (FrameRateFacts.cancelAnimationFrame_meter w0) as [_ H];
          destruct (SchedulerExtras.cancelAnimationFrame_page w0)
            as [_ [S _]];
          rewrite H, S
      end; [reflexivity | exact I].
  - exact I.
  - destruct (FrameRateFacts.streamingEffect_meter w) as [_ [_ H]].
    rewrite H.
    destruct (SchedulerExtras.cancelAnimationFrame_page w) as [_ [S1 _]].
    destruct (SchedulerExtras.cancelAnimationFrame_page
                (cancelAnimationFrame w)) as [_ [S2 _]].
    unfold streamingEffect.
    destruct (effectDeps w) as [previous |];
      repeat match goal with
             | |- context [if ?b then _ else _] => destruct b
             end;
      cbn [srcObject withEffectDeps requestAnimationFrame withRefs
           withBrowser]; rewrite ?S2, ?S1; exact I.
  - destruct (find (fun f => Nat.eqb (fst f) id) (frames (browser w)))
      as [[id' c] |]; [| exact I].
    unfold detectFaces.
    repeat match goal with
           | |- context [if ?b then _ else _] => destruct b
           end; exact I.
  - destruct (nth_error (pending (browser w)) k) as [c |]; [| exact I].
    unfold resume. destruct result; exact I.
Qed.

Lemma reachable_streaming (es : list Event) :
  isStreaming (hooks (fst (run es initial)))
  = srcObject (fst (run es initial)).
Proof.
  assert (G : forall v : World,
             isStreaming (hooks v) = srcObject v ->
             isStreaming (hooks (fst (run es v)))
             = srcObject (fst (run es v))).
  { induction es as [| e es IH]; intros v Iv; [exact Iv |].
    rewrite SchedulerFacts.run_cons. cbn [fst].
    apply IH. apply step_streaming. exact Iv. }
  apply G. reflexivity.
Qed.

(** The streaming flag follows the stream: in every state the component
    can reach, [isStreaming] is set exactly when the video element holds a
    stream; and [stopWebcam], with the video on the page, clears both and
    the recording flag, stopping the tracks exactly when it was
    streaming. *)
Theorem streaming_flag_follows_stream (es : list Event) :
  let w := fst (run es initial) in
  isStreaming (hooks w) = srcObject w
  /\ (mounted w = true ->
      isStreaming (hooks (fst (stopWebcam w))) = false
      /\ srcObject (fst (stopWebcam w)) = false
      /\ (isStreaming (hooks w) = true -> snd (stopWebcam w) = [StopTracks])
      /\ (isStreaming (hooks w) = false ->
          snd (stopWebcam w) = [] /\ hooks (fst (stopWebcam w)) = hooks w)).
Proof.
  intros w.
  assert (I : isStreaming (hooks w) = srcObject w)
    by (subst w; apply reachable_streaming).
  split; [exact I |].
  intros M. unfold stopWebcam. rewrite M, <- I. cbn [andb].
  destruct (isStreaming (hooks w)) eqn:S; cbn [fst snd];
    match goal with
    | |- context [cancelAnimationFrame ?w0] =>
        destruct (FrameRateFacts.cancelAnimationFrame_meter w0) as [_ H];
        destruct (SchedulerExtras.cancelAnimationFrame_page w0)
          as [_ [So _]];
        rewrite H, So
    end.
  - repeat split; try reflexivity; discriminate.
  - rewrite <- I, S. repeat split; try reflexivity; try assumption;
      discriminate.
Qed.

Lemma streaming_flag_follows_stream_witness :
  let w := fst (run untilFirstDetection initial) in
  isStreaming (hooks w) = true
  /\ snd (stopWebcam w) = [StopTracks]
  /\ isStreaming (hooks (fst (stopWebcam w))) = false.
Proof.
  intros w.
  destruct (streaming_flag_follows_stream untilFirstDetection) as [_ St].
  destruct (St eq_refl) as [Off [_ [Tr _]]].
  split; [reflexivity |]. split; [apply Tr; reflexivity | exact Off].
Defined.

(** The camera button always toggles: in every reachable state with the
    video on the page, [toggleWebcam] with the camera granted turns
    streaming off when it was on and on when it was off. *)
Theorem toggleWebcam_flips_streaming (es : list Event) :
  let w := fst (run es initial) in
  mounted w = true ->
  isStreaming (hooks (fst (WebcamControls.toggleWebcam true w)))
  = negb (isStreaming (hooks w))
  /\ srcObject (fst (WebcamControls.toggleWebcam true w))
     = negb (srcObject w).
Proof.
  intros w M. pose proof (reachable_streaming es) as I. fold w in I.
  unfold WebcamControls.toggleWebcam.
  destruct (isStreaming (hooks w)) eqn:S.
  - unfold stopWebcam. rewrite M, <- I. cbn [andb fst].
    match goal with
    | |- context [cancelAnimationFrame ?w0] =>
        destruct (FrameRateFacts.cancelAnimationFrame_meter w0) as [_ H];
        destruct (SchedulerExtras.cancelAnimationFrame_page w0)
          as [_ [So _]];
        rewrite H, So
    end.
    split; reflexivity.
  - unfold startWebcam. rewrite M, <- I. split; reflexivity.
Qed.

Lemma toggleWebcam_flips_streaming_witness :
  let w := fst (run untilFirstDetection initial) in
  isStreaming (hooks w) = true
  /\ isStreaming (hooks (fst (WebcamControls.toggleWebcam true w))) = false
  /\ srcObject (fst (WebcamControls.toggleWebcam true w)) = false.
Proof.
  intros w.
  destruct (toggleWebcam_flips_streaming untilFirstDetection eq_refl)
    as [A B].
  split; [reflexivity |]. split; [exact A | exact B].
Defined.

End AcceptanceFacts.

(** ** The speaking indicator and the text shown *)

Module SpeakingFacts.
Import VoiceDescription SpeechSynthesis.

(** [isSpeaking] is set by the [onstart] callback alone: no other step
    takes it from false to true, and handing an utterance to the speech
    output leaves it as it was. *)
Theorem isSpeaking_set_only_by_onstart (e : Event) (s : State) :
  (isSpeaking s = false -> isSpeaking (fst (step e s)) = true -> e = EvStart)
  /\ (dispatches (snd (step e s)) = true ->
      isSpeaking (fst (step e s)) = isSpeaking s).
Proof.
  destruct e as [supported | fs en | | | | |]; cbn [step];
    rewrite ?VoiceFacts.rerender_once, ?VoiceFacts.narrationEffect_isSpeaking;
    unfold speakDetailedDescription;
    rewrite ?VoiceFacts.speakDescription_isSpeaking;
    cbn [isSpeaking setSpeechSupported setProps setIsSpeaking fst snd
         dispatches existsb];
    try (split; [congruence | first [reflexivity | discriminate]]).
  unfold stopSpeaking. destruct (speechSupported s); cbn;
    split; congruence.
Qed.

Lemma isSpeaking_set_only_by_onstart_witness :
  let s := fst (mount [] true [] true) in
  isSpeaking (fst (step (EvProps [scenarioFace] true) s)) = isSpeaking s.
Proof.
  intros s.
  apply (proj2 (isSpeaking_set_only_by_onstart
                  (EvProps [scenarioFace] true) s)).
  reflexivity.
Defined.

Lemma speakDescription_description (d : string) (s : State) :
  (snd (speakDescription d s) = []
   /\ fst (speakDescription d s) = s)
  \/ (snd (speakDescription d s) = [Cancel; Speak (utteranceOf d s)]
      /\ currentDescription (fst (speakDescription d s)) = d).
Proof.
  unfold speakDescription.
  destruct (negb (enabled s) || negb (speechSupported s));
    [left | right]; split; reflexivity.
Qed.

Lemma narrationEffect_description (s : State) :
  (snd (narrationEffect s) = []
   /\ currentDescription (fst (narrationEffect s)) = currentDescription s)
  \/ (exists u, snd (narrationEffect s) = [Cancel; Speak u]
                /\ currentDescription (fst (narrationEffect s)) = text u).
Proof.
  unfold narrationEffect. destruct (narrationCall s) as [d |];
    [| left; split; reflexivity].
  destruct (speakDescription_description d s) as [[C E] | [C E]];
    destruct (speakDescription d s) as [s1 calls]; cbn [fst snd] in *.
  - left. subst. split; reflexivity.
  - right. exists (utteranceOf d s). split; [exact C | exact E].
Qed.

Lemma step_description (e : Event) (s : State) :
  (snd (step e s) = []
   /\ currentDescription (fst (step e s)) = currentDescription s)
  \/ snd (step e s) = [Cancel]
  \/ (exists u, snd (step e s) = [Cancel; Speak u]
                /\ currentDescription (fst (step e s)) = text u).
Proof.
  destruct e as [supported | fs en | | | | |]; cbn [step].
  - rewrite VoiceFacts.rerender_once.
    destruct (narrationEffect_description (setSpeechSupported supported s))
      as [E | E]; [left | right; right]; exact E.
  - rewrite VoiceFacts.rerender_once.
    destruct (narrationEffect_description (setProps fs en s))
      as [E | E]; [left | right; right]; exact E.
  - unfold speakDetailedDescription.
    destruct (speakDescription_description (getDetailedDescription s) s)
      as [[C E] | [C E]].
    + left. rewrite C, E. split; reflexivity.
    + right; right. eexists. split; [exact C | exact E].
  - unfold stopSpeaking. destruct (speechSupported s);
      [right; left; reflexivity | left; split; reflexivity].
  - left; split; reflexivity.
  - left; split; reflexivity.
  - left; split; reflexivity.
Qed.

(** The text the panel shows as being spoken is the text in the speech
    queue: after any events, every utterance the speech output still holds
    has [currentDescription] as its text. *)
Theorem shown_text_is_spoken_text (es : list Event) :
  forall (s : State) (queue : list Utterance),
    (forall u, In u queue -> text u = currentDescription s) ->
    forall u,
      In u (receiveAll (snd (run es s)) queue) ->
      text u = currentDescription (fst (run es s)).
Proof.
  induction es as [| e es IH]; intros s queue Q u I.
  - apply Q. exact I.
  - rewrite VoiceExtras.narration_run_cons in *. cbn [fst snd] in *.
    unfold receiveAll in I. rewrite fold_left_app in I.
    apply (IH (fst (step e s)) (fold_left receive (snd (step e s)) queue));
      [| exact I].
    intros v Iv.
    destruct (step_description e s) as [[C E] | [C | [x [C E]]]];
      rewrite C in Iv; cbn [fold_left receive app] in Iv.
    + rewrite E. apply Q. exact Iv.
    + destruct Iv.
    + destruct Iv as [<- | []]. symmetry. exact E.
Qed.

Lemma shown_text_is_spoken_text_witness :
  let s := fst (mount [] true [] true) in
  let es := [EvProps [scenarioFace] true; EvStart; EvProps [] true] in
  receiveAll (snd (run es s)) [] = [utteranceOf noFacesMessage s]
  /\ currentDescription (fst (run es s)) = noFacesMessage.
Proof.
  intros s es.
  split; [reflexivity |].
  symmetry.
  apply (shown_text_is_spoken_text es s [] (fun u F => match F with end)
           (utteranceOf noFacesMessage s)).
  left. reflexivity.
Defined.

End SpeakingFacts.
